(** * The SQL query filter builder and the size-bounded tuple query splitter

    A shallow embedding of [internal/datastore/common/sql.go]: the
    [SchemaQueryFilterer] builder with its "filter to X" operations, and
    [TupleQuerySplitter.SplitAndExecute] together with [executeSingleQuery].

    Conventions of the embedding.
    - Go's [int] is the 64-bit signed integer of the supported platforms and
      [uint64] the 64-bit unsigned one; both are carried by [Z] with the
      wrap-around of every addition, subtraction and conversion written out.
      The length of a string or of a slice always fits an [int], so [len]
      itself never wraps, and a counter bounded by a slice length
      ([currentUsersetCount], a range index) is kept as it is.
    - Go strings are byte strings: [string].
    - Pointers to protobuf messages ([*v0.ObjectAndRelation],
      [*v1.SubjectFilter]) are taken to be non-nil and are modelled by the
      record they point to; an optional message field is an [option].
    - A panic is an explicit outcome, [Panics].
    - squirrel's [sq.Eq] is a Go map from column names to values: a [gmap].
    - The connection pool, the transaction and the row cursor are an oracle
      answering each call of a partition; tracing spans only observe and are
      left out, apart from the attribute list the builder accumulates. *)

From Stdlib Require Import ZArith Ascii String List Sorted Lia.
From stdpp Require Import gmap strings list fin_maps.

Set Warnings "-register-all".

Local Open Scope string_scope.
Local Open Scope list_scope.
Local Open Scope Z_scope.

(** ** Machine integers *)

Module GoInt.

Definition int_min : Z := - 2 ^ 63.
Definition int_max : Z := 2 ^ 63 - 1.
Definition uint64_max : Z := 2 ^ 64 - 1.

Definition is_int (z : Z) : Prop := int_min <= z <= int_max.
Definition is_uint64 (z : Z) : Prop := 0 <= z <= uint64_max.

(** Two's-complement reduction to a signed 64-bit value. *)
Definition wrap_int (z : Z) : Z := (z + 2 ^ 63) mod 2 ^ 64 - 2 ^ 63.

(** Reduction to an unsigned 64-bit value. *)
Definition wrap_uint64 (z : Z) : Z := z mod 2 ^ 64.

(** [a + b] on [int]. *)
Definition int_add (a b : Z) : Z := wrap_int (a + b).

(** [a - b] on [uint64]. *)
Definition uint64_sub (a b : Z) : Z := wrap_uint64 (a - b).

(** The conversions [int(u)] and [int64(u)] of a [uint64]. *)
Definition int_of_uint64 (u : Z) : Z := wrap_int u.

(** The conversion [uint64(i)] of an [int]. *)
Definition uint64_of_int (i : Z) : Z := wrap_uint64 i.

(** [len(s)] of a string. *)
Definition len_string (s : string) : Z := Z.of_nat (String.length s).

(** [len(l)] of a slice. *)
Definition len {A : Type} (l : list A) : Z := Z.of_nat (List.length l).

End GoInt.
Import GoInt.

(** ** Outcomes of a call that may panic *)

Inductive outcome (A : Type) : Type :=
| Returns (a : A)
| Panics (msg : string).
Arguments Returns {A} a.
Arguments Panics {A} msg.

(** ** Errors *)

(** An [error] value: either an opaque one named by its message, or
    [fmt.Errorf(format, cause)] with a format ending in the wrapping verb. *)
Inductive error : Type :=
| ErrorString (msg : string)
| Errorf (format : string) (cause : error).

Definition errUnableToQueryTuples : string := "unable to query tuples: %w".

(** The text before the wrapping verb of a format. *)
Fixpoint format_prefix (format : string) : string :=
  match format with
  | String "%"%char (String "w"%char EmptyString) => EmptyString
  | String c rest => String c (format_prefix rest)
  | EmptyString => EmptyString
  end.

(** [err.Error()]. *)
Fixpoint error_message (e : error) : string :=
  match e with
  | ErrorString msg => msg
  | Errorf format cause => String.append (format_prefix format) (error_message cause)
  end.

(** [errors.Unwrap(err)]. *)
Definition Unwrap (e : error) : option error :=
  match e with
  | ErrorString _ => None
  | Errorf _ cause => Some cause
  end.

(** ** Messages *)

(** [v0.ObjectAndRelation]. *)
Record ObjectAndRelation : Type := {
  Namespace : string;
  ObjectId : string;
  Relation : string
}.

(** [v0.RelationTuple] whose user is a userset. *)
Record RelationTuple : Type := {
  TupleObjectAndRelation : ObjectAndRelation;
  TupleUserset : ObjectAndRelation
}.

(** [v1.SubjectFilter_RelationFilter]. *)
Record RelationFilter : Type := {
  FilterRelation : string
}.

(** [v1.SubjectFilter]. *)
Record SubjectFilter : Type := {
  SubjectType : string;
  OptionalSubjectId : string;
  OptionalRelation : option RelationFilter
}.

(** Modelled from the spec: the constant [datastore.Ellipsis], declared in
    [internal/datastore] and absent from the sources at hand; the "self"
    sentinel relation, written with three dots. *)
Definition Ellipsis : string := "...".

(** [stringz.DefaultEmpty(val, fallback)]: [fallback] when [val] is empty. *)
Definition DefaultEmpty (val fallback : string) : string :=
  if decide (val = "") then fallback else val.

(** ** Tracing attributes *)

Inductive AttributeValue : Type :=
| StringValue (s : string)
| Int64Value (i : Z).

Record KeyValue : Type := {
  Key : string;
  Value : AttributeValue
}.

Definition ObjNamespaceNameKey : string := "authzed.com/spicedb/sql/objNamespaceName".
Definition ObjRelationNameKey : string := "authzed.com/spicedb/sql/objRelationName".
Definition ObjIDKey : string := "authzed.com/spicedb/sql/objId".
Definition SubNamespaceNameKey : string := "authzed.com/spicedb/sql/subNamespaceName".
Definition SubRelationNameKey : string := "authzed.com/spicedb/sql/subRelationName".
Definition SubObjectIDKey : string := "authzed.com/spicedb/sql/subObjectId".
Definition limitKey : string := "authzed.com/spicedb/sql/limit".

(** [key.String(s)] and [key.Int64(i)]. *)
Definition KeyString (key s : string) : KeyValue := {| Key := key; Value := StringValue s |}.
Definition KeyInt64 (key : string) (i : Z) : KeyValue := {| Key := key; Value := Int64Value i |}.

(** ** The statement builder (squirrel) *)

(** A predicate handed to [Where]: [sq.Eq], a map from columns to the values
    they must equal (a conjunction), or [sq.Or], a disjunction. *)
Inductive Sqlizer : Type :=
| Eq (columns : gmap string string)
| Or (clauses : list Sqlizer).

(** [sq.SelectBuilder], an immutable value: every method returns a copy. *)
Record SelectBuilder : Type := {
  Columns : list string;
  From : string;
  WhereParts : list Sqlizer;
  LimitPart : option Z
}.

(** [b.Where(pred)] for a non-nil predicate: one more part of the WHERE
    clause, after the ones already there. *)
Definition Where (b : SelectBuilder) (pred : Sqlizer) : SelectBuilder :=
  {| Columns := Columns b;
     From := From b;
     WhereParts := WhereParts b ++ [pred];
     LimitPart := LimitPart b |}.

(** [b.Limit(limit)]. *)
Definition SetLimit (b : SelectBuilder) (limit : Z) : SelectBuilder :=
  {| Columns := Columns b;
     From := From b;
     WhereParts := WhereParts b;
     LimitPart := Some limit |}.

(** ** The query filter builder *)

Record SchemaInformation : Type := {
  TableTuple : string;
  ColNamespace : string;
  ColObjectID : string;
  ColRelation : string;
  ColUsersetNamespace : string;
  ColUsersetObjectID : string;
  ColUsersetRelation : string
}.

Record SchemaQueryFilterer : Type := {
  schema : SchemaInformation;
  queryBuilder : SelectBuilder;
  currentEstimatedSize : Z;
  tracerAttributes : list KeyValue
}.

(** Assignments to the fields of the receiver, which is a copy. *)
Definition set_queryBuilder (sqf : SchemaQueryFilterer) (b : SelectBuilder) : SchemaQueryFilterer :=
  {| schema := schema sqf;
     queryBuilder := b;
     currentEstimatedSize := currentEstimatedSize sqf;
     tracerAttributes := tracerAttributes sqf |}.

Definition set_currentEstimatedSize (sqf : SchemaQueryFilterer) (n : Z) : SchemaQueryFilterer :=
  {| schema := schema sqf;
     queryBuilder := queryBuilder sqf;
     currentEstimatedSize := n;
     tracerAttributes := tracerAttributes sqf |}.

Definition set_tracerAttributes (sqf : SchemaQueryFilterer) (attrs : list KeyValue) : SchemaQueryFilterer :=
  {| schema := schema sqf;
     queryBuilder := queryBuilder sqf;
     currentEstimatedSize := currentEstimatedSize sqf;
     tracerAttributes := attrs |}.

Definition NewSchemaQueryFilterer (s : SchemaInformation) (initialQuery : SelectBuilder) : SchemaQueryFilterer :=
  {| schema := s;
     queryBuilder := initialQuery;
     currentEstimatedSize := 0;
     tracerAttributes := [] |}.

Definition FilterToResourceType (sqf : SchemaQueryFilterer) (resourceType : string) : SchemaQueryFilterer :=
  let sqf := set_queryBuilder sqf
    (Where (queryBuilder sqf) (Eq {[ ColNamespace (schema sqf) := resourceType ]})) in
  let sqf := set_tracerAttributes sqf
    (tracerAttributes sqf ++ [KeyString ObjNamespaceNameKey resourceType]) in
  set_currentEstimatedSize sqf (int_add (currentEstimatedSize sqf) (len_string resourceType)).

Definition FilterToResourceID (sqf : SchemaQueryFilterer) (objectID : string) : SchemaQueryFilterer :=
  let sqf := set_queryBuilder sqf
    (Where (queryBuilder sqf) (Eq {[ ColObjectID (schema sqf) := objectID ]})) in
  let sqf := set_tracerAttributes sqf
    (tracerAttributes sqf ++ [KeyString ObjIDKey objectID]) in
  set_currentEstimatedSize sqf (int_add (currentEstimatedSize sqf) (len_string objectID)).

Definition FilterToRelation (sqf : SchemaQueryFilterer) (relation : string) : SchemaQueryFilterer :=
  let sqf := set_queryBuilder sqf
    (Where (queryBuilder sqf) (Eq {[ ColRelation (schema sqf) := relation ]})) in
  let sqf := set_tracerAttributes sqf
    (tracerAttributes sqf ++ [KeyString ObjRelationNameKey relation]) in
  set_currentEstimatedSize sqf (int_add (currentEstimatedSize sqf) (len_string relation)).

Definition FilterToSubjectFilter (sqf : SchemaQueryFilterer) (filter : SubjectFilter) : SchemaQueryFilterer :=
  let sqf := set_queryBuilder sqf
    (Where (queryBuilder sqf) (Eq {[ ColUsersetNamespace (schema sqf) := SubjectType filter ]})) in
  let sqf := set_tracerAttributes sqf
    (tracerAttributes sqf ++ [KeyString SubNamespaceNameKey (SubjectType filter)]) in
  let sqf :=
    if decide (OptionalSubjectId filter = "") then sqf
    else
      let sqf := set_queryBuilder sqf
        (Where (queryBuilder sqf) (Eq {[ ColUsersetObjectID (schema sqf) := OptionalSubjectId filter ]})) in
      set_tracerAttributes sqf
        (tracerAttributes sqf ++ [KeyString SubObjectIDKey (OptionalSubjectId filter)]) in
  let sqf := set_currentEstimatedSize sqf
    (int_add (currentEstimatedSize sqf)
       (int_add (len_string (SubjectType filter)) (len_string (OptionalSubjectId filter)))) in
  match OptionalRelation filter with
  | Some relationFilter =>
      let dsRelationName := DefaultEmpty (FilterRelation relationFilter) Ellipsis in
      let sqf := set_queryBuilder sqf
        (Where (queryBuilder sqf) (Eq {[ ColUsersetRelation (schema sqf) := dsRelationName ]})) in
      let sqf := set_tracerAttributes sqf
        (tracerAttributes sqf ++ [KeyString SubRelationNameKey dsRelationName]) in
      set_currentEstimatedSize sqf (int_add (currentEstimatedSize sqf) (len_string dsRelationName))
  | None => sqf
  end.

(** The relation name [FilterToSubjectFilter] filters on, when the filter
    carries a relation. *)
Definition subjectRelationName (filter : SubjectFilter) : option string :=
  option_map (fun r => DefaultEmpty (FilterRelation r) Ellipsis) (OptionalRelation filter).

(** The byte length of the operands of a subject filter. *)
Definition subjectFilterLength (filter : SubjectFilter) : Z :=
  len_string (SubjectType filter) + len_string (OptionalSubjectId filter)
  + match subjectRelationName filter with Some name => len_string name | None => 0 end.

(** The attributes a subject filter is traced with. *)
Definition subjectFilterAttributes (filter : SubjectFilter) : list KeyValue :=
  [KeyString SubNamespaceNameKey (SubjectType filter)]
  ++ (if bool_decide (OptionalSubjectId filter <> "")
      then [KeyString SubObjectIDKey (OptionalSubjectId filter)] else [])
  ++ match subjectRelationName filter with
     | Some name => [KeyString SubRelationNameKey name]
     | None => []
     end.




(** [len(userset.Namespace) + len(userset.ObjectId) + len(userset.Relation)]. *)
Definition usersetSize (userset : ObjectAndRelation) : Z :=
  int_add (int_add (len_string (Namespace userset)) (len_string (ObjectId userset)))
          (len_string (Relation userset)).

(** The map literal of one userset: a later key overwrites an equal earlier
    one. *)
Definition usersetEq (s : SchemaInformation) (userset : ObjectAndRelation) : gmap string string :=
  <[ ColUsersetRelation s := Relation userset ]>
    (<[ ColUsersetObjectID s := ObjectId userset ]>
       (<[ ColUsersetNamespace s := Namespace userset ]> ∅)).

(** One turn of the loop of [FilterToUsersets], on the clause built so far
    and the receiver. *)
Definition usersetsStep (acc : list Sqlizer * SchemaQueryFilterer) (userset : ObjectAndRelation)
  : list Sqlizer * SchemaQueryFilterer :=
  let '(orClause, sqf) := acc in
  (orClause ++ [Eq (usersetEq (schema sqf) userset)],
   set_currentEstimatedSize sqf (int_add (currentEstimatedSize sqf) (usersetSize userset))).

Definition FilterToUsersets (sqf : SchemaQueryFilterer) (usersets : list ObjectAndRelation)
  : outcome SchemaQueryFilterer :=
  if decide (len usersets = 0) then Panics "Got empty usersets filter"
  else
    let '(orClause, sqf) := fold_left usersetsStep usersets ([], sqf) in
    Returns (set_queryBuilder sqf (Where (queryBuilder sqf) (Or orClause))).

(** [sqf.Limit(limit)]. *)
Definition Limit (sqf : SchemaQueryFilterer) (limit : Z) : SchemaQueryFilterer :=
  let sqf := set_queryBuilder sqf (SetLimit (queryBuilder sqf) limit) in
  set_tracerAttributes sqf (tracerAttributes sqf ++ [KeyInt64 limitKey (int_of_uint64 limit)]).

(** ** Slices *)

(** Sequencing of calls that may panic. *)
#[global] Instance outcome_bind : MBind outcome := fun A B k o =>
  match o with
  | Returns a => k a
  | Panics msg => Panics msg
  end.

(** [s[lo:hi]]: the bounds are checked at run time, against the length (a
    slice expression may reach up to the capacity, which is at least the
    length; the splitter never goes that far). *)
Definition slice {A : Type} (s : list A) (lo hi : nat) : outcome (list A) :=
  if decide (lo <= hi <= List.length s)%nat
  then Returns (take (hi - lo) (drop lo s))
  else Panics "slice bounds out of range".

(** [s[lo:]]. *)
Definition sliceFrom {A : Type} (s : list A) (lo : nat) : outcome (list A) :=
  slice s lo (List.length s).

(** ** The split scan of [SplitAndExecute] *)

(** The local variables of the scan. *)
Record scanState : Type := {
  splitIndexes : list nat;
  currentEstimatedDataSize : Z;
  currentUsersetCount : Z
}.

(** The body of the loop over [ctq.Usersets], for the userset at [index];
    [base] is [ctq.FilteredQueryBuilder.currentEstimatedSize] and [threshold]
    is [int(ctq.SplitAtEstimatedQuerySize)]. *)
Definition scanStep (base threshold : Z) (st : scanState) (index : nat) (userset : ObjectAndRelation)
  : scanState :=
  let estimatedUsersetSize := usersetSize userset in
  let st :=
    if (0 <? currentUsersetCount st)
       && (threshold <=? int_add estimatedUsersetSize (currentEstimatedDataSize st))
    then {| splitIndexes := splitIndexes st ++ [index];
            currentEstimatedDataSize := base;
            currentUsersetCount := currentUsersetCount st |}
    else st in
  {| splitIndexes := splitIndexes st;
     currentEstimatedDataSize := int_add (currentEstimatedDataSize st) estimatedUsersetSize;
     currentUsersetCount := currentUsersetCount st + 1 |}.

(** The loop, from position [index] on. *)
Fixpoint scanFrom (base threshold : Z) (index : nat) (usersets : list ObjectAndRelation)
  (st : scanState) : scanState :=
  match usersets with
  | [] => st
  | userset :: rest => scanFrom base threshold (S index) rest (scanStep base threshold st index userset)
  end.

Definition scanInit (base : Z) : scanState :=
  {| splitIndexes := []; currentEstimatedDataSize := base; currentUsersetCount := 0 |}.

(** The state of the scan once the whole of [usersets] has been read. *)
Definition scan (base threshold : Z) (usersets : list ObjectAndRelation) : scanState :=
  scanFrom base threshold 0 usersets (scanInit base).

(** The slices the second loop cuts, in order: one up to each split index
    and the rest of the list. *)
Fixpoint usersetSlices (usersets : list ObjectAndRelation) (startIndex : nat) (indexes : list nat)
  : outcome (list (list ObjectAndRelation)) :=
  match indexes with
  | [] =>
      part ← sliceFrom usersets startIndex;
      Returns [part]
  | splitIndex :: rest =>
      part ← slice usersets startIndex splitIndex;
      parts ← usersetSlices usersets splitIndex rest;
      Returns (part :: parts)
  end.

(** The second loop and the statement after it: every slice goes through
    [FilterToUsersets] of the base builder as soon as it is cut. *)
Fixpoint sliceQueries (base : SchemaQueryFilterer) (usersets : list ObjectAndRelation)
  (startIndex : nat) (indexes : list nat) (queries : list SchemaQueryFilterer)
  : outcome (list SchemaQueryFilterer) :=
  match indexes with
  | [] =>
      part ← sliceFrom usersets startIndex;
      query ← FilterToUsersets base part;
      Returns (queries ++ [query])
  | splitIndex :: rest =>
      part ← slice usersets startIndex splitIndex;
      query ← FilterToUsersets base part;
      sliceQueries base usersets splitIndex rest (queries ++ [query])
  end.

(** ** The scan, as the specification words it *)

(** The partitions closed so far, the partition being filled, and the
    running estimated size. *)
Record specScanState : Type := {
  closedPartitions : list (list ObjectAndRelation);
  currentPartition : list ObjectAndRelation;
  runningSize : Z
}.

Definition specScanInit (base : Z) : specScanState :=
  {| closedPartitions := []; currentPartition := []; runningSize := base |}.

(** The partition is closed before [userset] when it already holds a userset
    and the userset's size added to the running size reaches the threshold;
    the running size then starts again from the base size and [userset] opens
    the next partition. Otherwise [userset] joins the current partition. *)
Definition specScanStep (base threshold : Z) (st : specScanState) (userset : ObjectAndRelation)
  : specScanState :=
  if bool_decide (currentPartition st <> [])
     && (threshold <=? int_add (usersetSize userset) (runningSize st))
  then {| closedPartitions := closedPartitions st ++ [currentPartition st];
          currentPartition := [userset];
          runningSize := int_add base (usersetSize userset) |}
  else {| closedPartitions := closedPartitions st;
          currentPartition := currentPartition st ++ [userset];
          runningSize := int_add (runningSize st) (usersetSize userset) |}.

Definition specScan (base threshold : Z) (usersets : list ObjectAndRelation) : specScanState :=
  fold_left (specScanStep base threshold) usersets (specScanInit base).

Definition specPartitions (base threshold : Z) (usersets : list ObjectAndRelation)
  : list (list ObjectAndRelation) :=
  let st := specScan base threshold usersets in
  closedPartitions st ++ [currentPartition st].

(** The estimated size of a partition: the base size and the sizes of its
    members, as plain integers. *)
Definition usersetLength (userset : ObjectAndRelation) : Z :=
  len_string (Namespace userset) + len_string (ObjectId userset) + len_string (Relation userset).

Definition partitionSize (base : Z) (part : list ObjectAndRelation) : Z :=
  base + foldr (fun userset acc => usersetLength userset + acc) 0 part.

(** The end offsets of consecutive parts laid out from offset [start]. *)
Fixpoint boundaries {A : Type} (start : nat) (parts : list (list A)) : list nat :=
  match parts with
  | [] => []
  | part :: rest => (start + List.length part)%nat :: boundaries (start + List.length part)%nat rest
  end.

(** What the scan of the code and the scan of the specification have in
    common after the same usersets. *)
Record scansAgree (base threshold : Z) (before : list ObjectAndRelation) : Prop := {
  agree_count : currentUsersetCount (scan base threshold before) = len before;
  agree_size :
    currentEstimatedDataSize (scan base threshold before) = runningSize (specScan base threshold before);
  agree_indexes :
    splitIndexes (scan base threshold before) =
    boundaries 0 (closedPartitions (specScan base threshold before));
  agree_concat :
    concat (closedPartitions (specScan base threshold before))
    ++ currentPartition (specScan base threshold before) = before;
  agree_closed :
    Forall (fun part => part <> []) (closedPartitions (specScan base threshold before));
  agree_current :
    before <> [] -> currentPartition (specScan base threshold before) <> []
}.

(** ** The database, as the splitter sees it *)

(** A rendered statement: its text and its arguments. *)
Definition Sql : Type := string * list string.

(** [datastore.Revision], an opaque snapshot number. *)
Definition Revision : Type := Z.

(** What [rows.Scan] does at one row. *)
Inductive rowResult : Type :=
| ScanSucceeds (nextTuple : RelationTuple)
| ScanFails (err : error).

(** A row cursor: [rows.Next()] holds as long as rows are left, then
    [rows.Err()] tells how the iteration ended. *)
Record Rows : Type := {
  rowResults : list rowResult;
  rowsErr : option error
}.

(** [*pgxpool.Pool]. One call of [SplitAndExecute] opens at most one
    transaction per partition and sends one statement through it, so the
    answers are indexed by the partition's index. *)
Record Pool : Type := {
  BeginTx : nat -> option error;
  Query : nat -> Sql -> error + Rows
}.

(** [TransactionPreparer], applied to the transaction of a partition. *)
Definition TransactionPreparer : Type := nat -> Revision -> option error.

(** Modelled from the spec: [datastore.TupleIterator] as
    [datastore.NewSliceTupleIterator] builds it, declared in
    [internal/datastore] and absent from the sources at hand; a forward-only
    finite sequence of the tuples it was given. *)
Record TupleIterator : Type := NewSliceTupleIterator {
  iteratorTuples : list RelationTuple
}.

(** [TupleQuerySplitter]; the threshold is a [units.Base2Bytes], a 64-bit
    signed count of bytes, and the tracer is left out. *)
Module TupleQuerySplitter.
Record t : Type := {
  Conn : Pool;
  PrepareTransaction : option TransactionPreparer;
  SplitAtEstimatedQuerySize : Z;
  FilteredQueryBuilder : SchemaQueryFilterer;
  Revision : Revision;
  Limit : option Z;
  Usersets : list ObjectAndRelation;
  DebugName : string
}.
End TupleQuerySplitter.
Abbreviation TupleQuerySplitter := TupleQuerySplitter.t.

(** The first part of [SplitAndExecute]: the queries to run. *)
Definition splitQueries (ctq : TupleQuerySplitter) : outcome (list SchemaQueryFilterer) :=
  let usersets := TupleQuerySplitter.Usersets ctq in
  let base := TupleQuerySplitter.FilteredQueryBuilder ctq in
  if decide (0 < len usersets) then
    let st := scan (currentEstimatedSize base) (TupleQuerySplitter.SplitAtEstimatedQuerySize ctq) usersets in
    sliceQueries base usersets 0 (splitIndexes st) []
  else Returns [base].

(** The userset slices behind those queries. *)
Definition splitPartitions (ctq : TupleQuerySplitter) : outcome (list (list ObjectAndRelation)) :=
  let usersets := TupleQuerySplitter.Usersets ctq in
  let base := TupleQuerySplitter.FilteredQueryBuilder ctq in
  let st := scan (currentEstimatedSize base) (TupleQuerySplitter.SplitAtEstimatedQuerySize ctq) usersets in
  usersetSlices usersets 0 (splitIndexes st).

Section Execution.

(** [queryBuilder.ToSql()] of squirrel. *)
Variable ToSql : SelectBuilder -> error + Sql.

(** The loop over the cursor in [executeSingleQuery]. *)
Fixpoint readRows (limit : Z) (rows : list rowResult) (rowsErr : option error)
  (tuples : list RelationTuple) : list RelationTuple * option error :=
  match rows with
  | [] =>
      match rowsErr with
      | Some err => ([], Some (Errorf errUnableToQueryTuples err))
      | None => (tuples, None)
      end
  | row :: rest =>
      if (0 <? limit) && (int_of_uint64 limit <=? len tuples) then (tuples, None)
      else
        match row with
        | ScanFails err => ([], Some (Errorf errUnableToQueryTuples err))
        | ScanSucceeds nextTuple => readRows limit rest rowsErr (tuples ++ [nextTuple])
        end
  end.

Definition executeSingleQuery (ctq : TupleQuerySplitter) (query : SchemaQueryFilterer)
  (index : nat) (limit : Z) : list RelationTuple * option error :=
  match ToSql (queryBuilder query) with
  | inl err => ([], Some (Errorf errUnableToQueryTuples err))
  | inr sql =>
      match BeginTx (TupleQuerySplitter.Conn ctq) index with
      | Some err => ([], Some (Errorf errUnableToQueryTuples err))
      | None =>
          let prepared :=
            match TupleQuerySplitter.PrepareTransaction ctq with
            | Some prepare => prepare index (TupleQuerySplitter.Revision ctq)
            | None => None
            end in
          match prepared with
          | Some err => ([], Some (Errorf errUnableToQueryTuples err))
          | None =>
              match Query (TupleQuerySplitter.Conn ctq) index sql with
              | inl err => ([], Some (Errorf errUnableToQueryTuples err))
              | inr rows => readRows limit (rowResults rows) (rowsErr rows) []
              end
          end
      end
  end.

(** How one turn of the execution loop ends. *)
Inductive iteration : Type :=
| Continues (tuples : list RelationTuple)
| Breaks
| ReturnsError (err : error).

(** The body of the execution loop. *)
Definition executeIteration (ctq : TupleQuerySplitter) (index : nat)
  (query : SchemaQueryFilterer) (tuples : list RelationTuple) : iteration :=
  match TupleQuerySplitter.Limit ctq with
  | Some limit =>
      let newLimit := uint64_sub limit (uint64_of_int (len tuples)) in
      if newLimit <=? 0 then Breaks
      else
        let query := Limit query newLimit in
        match executeSingleQuery ctq query index newLimit with
        | (_, Some err) => ReturnsError err
        | (foundTuples, None) => Continues (tuples ++ foundTuples)
        end
  | None =>
      match executeSingleQuery ctq query index 0 with
      | (_, Some err) => ReturnsError err
      | (foundTuples, None) => Continues (tuples ++ foundTuples)
      end
  end.

(** The execution loop: the error it returns with, or the tuples it ends
    with. *)
Fixpoint executeQueries (ctq : TupleQuerySplitter) (index : nat)
  (queries : list SchemaQueryFilterer) (tuples : list RelationTuple)
  : error + list RelationTuple :=
  match queries with
  | [] => inr tuples
  | query :: rest =>
      match executeIteration ctq index query tuples with
      | Continues tuples => executeQueries ctq (S index) rest tuples
      | Breaks => inr tuples
      | ReturnsError err => inl err
      end
  end.

(** [SplitAndExecute]: the iterator and the error it returns. *)
Definition SplitAndExecute (ctq : TupleQuerySplitter)
  : outcome (option TupleIterator * option error) :=
  queries ← splitQueries ctq;
  match executeQueries ctq 0 queries [] with
  | inl err => Returns (None, Some err)
  | inr tuples => Returns (Some (NewSliceTupleIterator tuples), None)
  end.

(** The turns of the execution loop: [iterationStarts ctq queries k tuples]
    when the loop comes to its [k]-th turn, or to its end after [k] turns,
    holding [tuples]. *)
Inductive iterationStarts (ctq : TupleQuerySplitter) (queries : list SchemaQueryFilterer)
  : nat -> list RelationTuple -> Prop :=
| starts_first : iterationStarts ctq queries 0 []
| starts_next (k : nat) (query : SchemaQueryFilterer) (tuples tuples' : list RelationTuple) :
    iterationStarts ctq queries k tuples ->
    queries !! k = Some query ->
    executeIteration ctq k query tuples = Continues tuples' ->
    iterationStarts ctq queries (S k) tuples'.

(** The cursor loop goes on to read a row while holding [held] tuples when
    no cap is set or the cap is not reached. *)
Definition capAllows (limit held : Z) : Prop :=
  limit <= 0 \/ held < int_of_uint64 limit.

(** The transaction preparation of a partition: nothing without a hook. *)
Definition prepared (ctq : TupleQuerySplitter) (index : nat) : option error :=
  match TupleQuerySplitter.PrepareTransaction ctq with
  | Some prepare => prepare index (TupleQuerySplitter.Revision ctq)
  | None => None
  end.

(** The stages at which the execution of [query] as partition [index] with
    row cap [limit] fails, with the cause: rendering the statement, beginning
    the transaction, the preparation hook, sending the statement, decoding a
    row that the loop comes to read, and the end of an iteration that the
    loop follows to its end. *)
Inductive stageFailure (ctq : TupleQuerySplitter) (query : SchemaQueryFilterer)
  (index : nat) (limit : Z) : error -> Prop :=
| fails_rendering (cause : error) :
    ToSql (queryBuilder query) = inl cause ->
    stageFailure ctq query index limit cause
| fails_begin (sql : Sql) (cause : error) :
    ToSql (queryBuilder query) = inr sql ->
    BeginTx (TupleQuerySplitter.Conn ctq) index = Some cause ->
    stageFailure ctq query index limit cause
| fails_preparation (sql : Sql) (cause : error) :
    ToSql (queryBuilder query) = inr sql ->
    BeginTx (TupleQuerySplitter.Conn ctq) index = None ->
    prepared ctq index = Some cause ->
    stageFailure ctq query index limit cause
| fails_statement (sql : Sql) (cause : error) :
    ToSql (queryBuilder query) = inr sql ->
    BeginTx (TupleQuerySplitter.Conn ctq) index = None ->
    prepared ctq index = None ->
    Query (TupleQuerySplitter.Conn ctq) index sql = inl cause ->
    stageFailure ctq query index limit cause
| fails_decoding (sql : Sql) (rows : Rows) (scanned : list RelationTuple)
    (rest : list rowResult) (cause : error) :
    ToSql (queryBuilder query) = inr sql ->
    BeginTx (TupleQuerySplitter.Conn ctq) index = None ->
    prepared ctq index = None ->
    Query (TupleQuerySplitter.Conn ctq) index sql = inr rows ->
    rowResults rows = map ScanSucceeds scanned ++ ScanFails cause :: rest ->
    capAllows limit (len scanned) ->
    stageFailure ctq query index limit cause
| fails_iteration (sql : Sql) (rows : Rows) (scanned : list RelationTuple) (cause : error) :
    ToSql (queryBuilder query) = inr sql ->
    BeginTx (TupleQuerySplitter.Conn ctq) index = None ->
    prepared ctq index = None ->
    Query (TupleQuerySplitter.Conn ctq) index sql = inr rows ->
    rowResults rows = map ScanSucceeds scanned ->
    rowsErr rows = Some cause ->
    scanned = [] \/ capAllows limit (len scanned - 1) ->
    stageFailure ctq query index limit cause.

(** Partition [index] is executed, as [executed] with row cap [cap], once
    the loop comes to it holding [tuples]: the limit, if any, is not
    exhausted. *)
Definition executes (ctq : TupleQuerySplitter) (query : SchemaQueryFilterer)
  (tuples : list RelationTuple) (executed : SchemaQueryFilterer) (cap : Z) : Prop :=
  match TupleQuerySplitter.Limit ctq with
  | Some limit =>
      cap = uint64_sub limit (uint64_of_int (len tuples)) /\ 0 < cap /\ executed = Limit query cap
  | None => cap = 0 /\ executed = query
  end.

(** A database that holds the rows [matching index] for partition [index]
    and answers without failure: asked through a statement capped at [cap]
    rows, it sends rows of [matching index] from the first on, all of them or
    at least [cap]. *)
Definition answers (ctq : TupleQuerySplitter) (queries : list SchemaQueryFilterer)
  (matching : nat -> list RelationTuple) : Prop :=
  forall index query cap,
    queries !! index = Some query ->
    0 < cap ->
    exists sql returned,
      ToSql (queryBuilder (Limit query cap)) = inr sql /\
      BeginTx (TupleQuerySplitter.Conn ctq) index = None /\
      prepared ctq index = None /\
      Query (TupleQuerySplitter.Conn ctq) index sql
        = inr {| rowResults := map ScanSucceeds returned; rowsErr := None |} /\
      returned = take (List.length returned) (matching index) /\
      Z.min cap (len (matching index)) <= len returned.

(** All the rows the partitions from [index] on hold, in order. *)
Fixpoint matchingFrom (matching : nat -> list RelationTuple) (index count : nat)
  : list RelationTuple :=
  match count with
  | O => []
  | S count => matching index ++ matchingFrom matching (S index) count
  end.

End Execution.

(** * Sample data *)

(** The column names of the Postgres datastore. *)
Definition sampleSchema : SchemaInformation :=
  {| TableTuple := "relation_tuple";
     ColNamespace := "namespace";
     ColObjectID := "object_id";
     ColRelation := "relation";
     ColUsersetNamespace := "userset_namespace";
     ColUsersetObjectID := "userset_object_id";
     ColUsersetRelation := "userset_relation" |}.

Definition sampleSelect : SelectBuilder :=
  {| Columns := ["namespace"; "object_id"; "relation";
                 "userset_namespace"; "userset_object_id"; "userset_relation"];
     From := "relation_tuple";
     WhereParts := [];
     LimitPart := None |}.

(** A builder with nothing filtered yet: estimated size 0. *)
Definition emptyFilterer : SchemaQueryFilterer := NewSchemaQueryFilterer sampleSchema sampleSelect.

(** A builder filtered to a resource type of fifteen bytes. *)
Definition folderFilterer : SchemaQueryFilterer := FilterToResourceType emptyFilterer "document_folder".

Definition userTom : ObjectAndRelation :=
  {| Namespace := "user"; ObjectId := "tom"; Relation := "..." |}.

Definition groupMembers : SubjectFilter :=
  {| SubjectType := "group";
     OptionalSubjectId := "eng";
     OptionalRelation := Some {| FilterRelation := "" |} |}.

(** The three usersets of the split scenario, of sizes 2, 4 and 19. *)
Definition usersetA : ObjectAndRelation := {| Namespace := "a"; ObjectId := "1"; Relation := "" |}.
Definition usersetB : ObjectAndRelation := {| Namespace := "bb"; ObjectId := "22"; Relation := "" |}.
Definition usersetC : ObjectAndRelation :=
  {| Namespace := "cccccccccccccccccc"; ObjectId := "3"; Relation := "" |}.


(** A renderer that accepts every statement and a pool that answers every
    statement with no rows. *)
Definition plainToSql (b : SelectBuilder) : error + Sql := inr (From b, []).

Definition quietPool : Pool :=
  {| BeginTx := fun _ => None;
     Query := fun _ _ => inr {| rowResults := []; rowsErr := None |} |}.

(** The split scenario: threshold 20, base size 0, usersets of sizes 2, 4
    and 19. *)
Definition scenarioSplitter : TupleQuerySplitter :=
  {| TupleQuerySplitter.Conn := quietPool;
     TupleQuerySplitter.PrepareTransaction := None;
     TupleQuerySplitter.SplitAtEstimatedQuerySize := 20;
     TupleQuerySplitter.FilteredQueryBuilder := emptyFilterer;
     TupleQuerySplitter.Revision := 1;
     TupleQuerySplitter.Limit := None;
     TupleQuerySplitter.Usersets := [usersetA; usersetB; usersetC];
     TupleQuerySplitter.DebugName := "QueryTuples" |}.

(** Threshold 20, base size 15, one userset of size 10. *)
Definition folderSplitter : TupleQuerySplitter :=
  {| TupleQuerySplitter.Conn := quietPool;
     TupleQuerySplitter.PrepareTransaction := None;
     TupleQuerySplitter.SplitAtEstimatedQuerySize := 20;
     TupleQuerySplitter.FilteredQueryBuilder := folderFilterer;
     TupleQuerySplitter.Revision := 1;
     TupleQuerySplitter.Limit := None;
     TupleQuerySplitter.Usersets := [userTom];
     TupleQuerySplitter.DebugName := "QueryTuples" |}.


(** Stored tuples about documents, and pools that answer with them. *)
Definition viewerOf (document : string) : RelationTuple :=
  {| TupleObjectAndRelation := {| Namespace := "document"; ObjectId := document; Relation := "viewer" |};
     TupleUserset := userTom |}.

Definition brokenRow : error := ErrorString "cannot scan row".

(** The first partition has two rows, the second fails to decode its first
    row, the third has one row. *)
Definition secondFailsPool : Pool :=
  {| BeginTx := fun _ => None;
     Query := fun index _ =>
       match index with
       | O => inr {| rowResults := [ScanSucceeds (viewerOf "1"); ScanSucceeds (viewerOf "2")];
                     rowsErr := None |}
       | S O => inr {| rowResults := [ScanFails brokenRow]; rowsErr := None |}
       | _ => inr {| rowResults := [ScanSucceeds (viewerOf "3")]; rowsErr := None |}
       end |}.

(** Threshold 1: every userset is a partition of its own. *)
Definition secondFailsSplitter : TupleQuerySplitter :=
  {| TupleQuerySplitter.Conn := secondFailsPool;
     TupleQuerySplitter.PrepareTransaction := None;
     TupleQuerySplitter.SplitAtEstimatedQuerySize := 1;
     TupleQuerySplitter.FilteredQueryBuilder := emptyFilterer;
     TupleQuerySplitter.Revision := 1;
     TupleQuerySplitter.Limit := None;
     TupleQuerySplitter.Usersets := [usersetA; usersetB; usersetC];
     TupleQuerySplitter.DebugName := "QueryTuples" |}.

(** Every partition has ten rows. *)
Definition tenRows : list RelationTuple :=
  map viewerOf ["0"; "1"; "2"; "3"; "4"; "5"; "6"; "7"; "8"; "9"].

Definition tenRowsPool : Pool :=
  {| BeginTx := fun _ => None;
     Query := fun _ _ => inr {| rowResults := map ScanSucceeds tenRows; rowsErr := None |} |}.

(** Limit 5 over three partitions of ten rows each. *)
Definition limitedSplitter : TupleQuerySplitter :=
  {| TupleQuerySplitter.Conn := tenRowsPool;
     TupleQuerySplitter.PrepareTransaction := None;
     TupleQuerySplitter.SplitAtEstimatedQuerySize := 1;
     TupleQuerySplitter.FilteredQueryBuilder := emptyFilterer;
     TupleQuerySplitter.Revision := 1;
     TupleQuerySplitter.Limit := Some 5;
     TupleQuerySplitter.Usersets := [usersetA; usersetB; usersetC];
     TupleQuerySplitter.DebugName := "QueryTuples" |}.

(** One query, one matching row, and the limit 2^63. *)
Definition oneRowPool : Pool :=
  {| BeginTx := fun _ => None;
     Query := fun _ _ => inr {| rowResults := [ScanSucceeds (viewerOf "1")]; rowsErr := None |} |}.

Definition hugeLimitSplitter : TupleQuerySplitter :=
  {| TupleQuerySplitter.Conn := oneRowPool;
     TupleQuerySplitter.PrepareTransaction := None;
     TupleQuerySplitter.SplitAtEstimatedQuerySize := 8 * 1024 * 1024;
     TupleQuerySplitter.FilteredQueryBuilder := folderFilterer;
     TupleQuerySplitter.Revision := 1;
     TupleQuerySplitter.Limit := Some (2 ^ 63);
     TupleQuerySplitter.Usersets := [];
     TupleQuerySplitter.DebugName := "QueryTuples" |}.


(** [DefaultSplitAtEstimatedQuerySize]: eight mebibytes. *)
Definition DefaultSplitAtEstimatedQuerySize : Z := 8 * 2 ^ 20.

(** The default threshold of eight mebibytes, and a threshold of zero. *)
Definition defaultSplitter : TupleQuerySplitter :=
  {| TupleQuerySplitter.Conn := quietPool;
     TupleQuerySplitter.PrepareTransaction := None;
     TupleQuerySplitter.SplitAtEstimatedQuerySize := DefaultSplitAtEstimatedQuerySize;
     TupleQuerySplitter.FilteredQueryBuilder := folderFilterer;
     TupleQuerySplitter.Revision := 1;
     TupleQuerySplitter.Limit := None;
     TupleQuerySplitter.Usersets := [usersetA; usersetB; usersetC];
     TupleQuerySplitter.DebugName := "QueryTuples" |}.

Definition zeroThresholdSplitter : TupleQuerySplitter :=
  {| TupleQuerySplitter.Conn := quietPool;
     TupleQuerySplitter.PrepareTransaction := None;
     TupleQuerySplitter.SplitAtEstimatedQuerySize := 0;
     TupleQuerySplitter.FilteredQueryBuilder := folderFilterer;
     TupleQuerySplitter.Revision := 1;
     TupleQuerySplitter.Limit := None;
     TupleQuerySplitter.Usersets := [usersetA; usersetB; usersetC];
     TupleQuerySplitter.DebugName := "QueryTuples" |}.


(** What [SplitAndExecute] makes of the outcome of its only query, when
    there is just one. *)
Definition singleResult (outcome : list RelationTuple * option error)
  : option TupleIterator * option error :=
  match outcome with
  | (_, Some err) => (None, Some err)
  | (foundTuples, None) => (Some (NewSliceTupleIterator foundTuples), None)
  end.

(** A database that answers every partition without failure and with all
    the rows [matching index] it holds for it. *)
Definition answersAll (ToSql : SelectBuilder -> error + Sql) (ctq : TupleQuerySplitter)
  (queries : list SchemaQueryFilterer) (matching : nat -> list RelationTuple) : Prop :=
  forall index query,
    queries !! index = Some query ->
    exists sql,
      ToSql (queryBuilder query) = inr sql /\
      BeginTx (TupleQuerySplitter.Conn ctq) index = None /\
      prepared ctq index = None /\
      Query (TupleQuerySplitter.Conn ctq) index sql
        = inr {| rowResults := map ScanSucceeds (matching index); rowsErr := None |}.

(** Partition [index] holds the document named after it, twice over. *)
Definition numberedPool : Pool :=
  {| BeginTx := fun _ => None;
     Query := fun index _ =>
       inr {| rowResults :=
                match index with
                | O => [ScanSucceeds (viewerOf "0"); ScanSucceeds (viewerOf "0")]
                | S O => [ScanSucceeds (viewerOf "1"); ScanSucceeds (viewerOf "1")]
                | _ => [ScanSucceeds (viewerOf "2"); ScanSucceeds (viewerOf "2")]
                end;
              rowsErr := None |} |}.

Definition numberedRows (index : nat) : list RelationTuple :=
  match index with
  | O => [viewerOf "0"; viewerOf "0"]
  | S O => [viewerOf "1"; viewerOf "1"]
  | _ => [viewerOf "2"; viewerOf "2"]
  end.

Definition numberedSplitter : TupleQuerySplitter :=
  {| TupleQuerySplitter.Conn := numberedPool;
     TupleQuerySplitter.PrepareTransaction := None;
     TupleQuerySplitter.SplitAtEstimatedQuerySize := 1;
     TupleQuerySplitter.FilteredQueryBuilder := emptyFilterer;
     TupleQuerySplitter.Revision := 1;
     TupleQuerySplitter.Limit := None;
     TupleQuerySplitter.Usersets := [usersetA; usersetB; usersetC];
     TupleQuerySplitter.DebugName := "QueryTuples" |}.

(** A pool out of reach, a limit of zero, and no usersets. *)
Definition downPool : Pool :=
  {| BeginTx := fun _ => Some (ErrorString "connection refused");
     Query := fun _ _ => inl (ErrorString "connection refused") |}.

Definition zeroLimitSplitter : TupleQuerySplitter :=
  {| TupleQuerySplitter.Conn := downPool;
     TupleQuerySplitter.PrepareTransaction := None;
     TupleQuerySplitter.SplitAtEstimatedQuerySize := 1;
     TupleQuerySplitter.FilteredQueryBuilder := emptyFilterer;
     TupleQuerySplitter.Revision := 1;
     TupleQuerySplitter.Limit := Some 0;
     TupleQuerySplitter.Usersets := [usersetA; usersetB; usersetC];
     TupleQuerySplitter.DebugName := "QueryTuples" |}.

Definition reverseSplitter : TupleQuerySplitter :=
  {| TupleQuerySplitter.Conn := tenRowsPool;
     TupleQuerySplitter.PrepareTransaction := None;
     TupleQuerySplitter.SplitAtEstimatedQuerySize := 1;
     TupleQuerySplitter.FilteredQueryBuilder := folderFilterer;
     TupleQuerySplitter.Revision := 1;
     TupleQuerySplitter.Limit := Some 3;
     TupleQuerySplitter.Usersets := [];
     TupleQuerySplitter.DebugName := "ReverseQueryTuples" |}.


(** Two builders that select the same rows and weigh the same: the same
    schema, table, columns and limit, the same predicates and attributes up to
    their order, the same estimated size. *)
Definition sameFilters (a b : SchemaQueryFilterer) : Prop :=
  schema a = schema b /\
  Columns (queryBuilder a) = Columns (queryBuilder b) /\
  From (queryBuilder a) = From (queryBuilder b) /\
  LimitPart (queryBuilder a) = LimitPart (queryBuilder b) /\
  WhereParts (queryBuilder a) ≡ₚ WhereParts (queryBuilder b) /\
  currentEstimatedSize a = currentEstimatedSize b /\
  tracerAttributes a ≡ₚ tracerAttributes b.


(** * The Postgres datastore: [QueryTuples] and [ReverseQueryTuples] *)

(** [v1.RelationshipFilter]. *)
Module RelationshipFilter.
Record t : Type := {
  ResourceType : string;
  OptionalResourceId : string;
  OptionalRelation : string;
  OptionalSubjectFilter : option SubjectFilter
}.
End RelationshipFilter.

(** [v0.RelationReference]. *)
Module RelationReference.
Record t : Type := {
  Namespace : string;
  Relation : string
}.
End RelationReference.

(** [options.QueryOptions] and [options.ReverseQueryOptions], as
    [NewQueryOptionsWithOptions] and [NewReverseQueryOptionsWithOptions] make
    them out of the options of a call. *)
Module QueryOptions.
Record t : Type := {
  Limit : option Z;
  Usersets : list ObjectAndRelation
}.
End QueryOptions.

Module ReverseQueryOptions.
Record t : Type := {
  ReverseLimit : option Z;
  ResRelation : option RelationReference.t
}.
End ReverseQueryOptions.

(** The fields of [pgDatastore] the two queries read. *)
Record pgDatastore : Type := {
  dbpool : Pool;
  splitAtEstimatedQuerySize : Z
}.

Section Postgres.

(** The column and table names, and the filter on living rows, are declared
    elsewhere in the package. *)
Variables colNamespace colObjectID colRelation : string.
Variables colUsersetNamespace colUsersetObjectID colUsersetRelation : string.
Variable tableTuple : string.
Variable filterToLivingObjects : SelectBuilder -> Revision -> SelectBuilder.
Variable ToSql : SelectBuilder -> error + Sql.

Definition queryTuples : SelectBuilder :=
  {| Columns := [colNamespace; colObjectID; colRelation;
                 colUsersetNamespace; colUsersetObjectID; colUsersetRelation];
     From := tableTuple;
     WhereParts := [];
     LimitPart := None |}.

(** The table name is left unset. *)
Definition pgSchema : SchemaInformation :=
  {| TableTuple := "";
     ColNamespace := colNamespace;
     ColObjectID := colObjectID;
     ColRelation := colRelation;
     ColUsersetNamespace := colUsersetNamespace;
     ColUsersetObjectID := colUsersetObjectID;
     ColUsersetRelation := colUsersetRelation |}.

(** The builder [QueryTuples] hands to the splitter. *)
Definition queryTuplesBuilder (filter : RelationshipFilter.t) (revision : Revision)
  : SchemaQueryFilterer :=
  let qBuilder :=
    FilterToResourceType
      (NewSchemaQueryFilterer pgSchema (filterToLivingObjects queryTuples revision))
      (RelationshipFilter.ResourceType filter) in
  let qBuilder :=
    if decide (RelationshipFilter.OptionalResourceId filter = "") then qBuilder
    else FilterToResourceID qBuilder (RelationshipFilter.OptionalResourceId filter) in
  let qBuilder :=
    if decide (RelationshipFilter.OptionalRelation filter = "") then qBuilder
    else FilterToRelation qBuilder (RelationshipFilter.OptionalRelation filter) in
  match RelationshipFilter.OptionalSubjectFilter filter with
  | Some subjectFilter => FilterToSubjectFilter qBuilder subjectFilter
  | None => qBuilder
  end.

Definition queryTuplesSplitter (pgd : pgDatastore) (filter : RelationshipFilter.t)
  (revision : Revision) (queryOpts : QueryOptions.t) : TupleQuerySplitter :=
  {| TupleQuerySplitter.Conn := dbpool pgd;
     TupleQuerySplitter.PrepareTransaction := None;
     TupleQuerySplitter.SplitAtEstimatedQuerySize := splitAtEstimatedQuerySize pgd;
     TupleQuerySplitter.FilteredQueryBuilder := queryTuplesBuilder filter revision;
     TupleQuerySplitter.Revision := revision;
     TupleQuerySplitter.Limit := QueryOptions.Limit queryOpts;
     TupleQuerySplitter.Usersets := QueryOptions.Usersets queryOpts;
     TupleQuerySplitter.DebugName := "QueryTuples" |}.

Definition QueryTuples (pgd : pgDatastore) (filter : RelationshipFilter.t)
  (revision : Revision) (queryOpts : QueryOptions.t)
  : outcome (option TupleIterator * option error) :=
  SplitAndExecute ToSql (queryTuplesSplitter pgd filter revision queryOpts).

(** The builder [ReverseQueryTuples] hands to the splitter. *)
Definition reverseQueryTuplesBuilder (subjectFilter : SubjectFilter) (revision : Revision)
  (queryOpts : ReverseQueryOptions.t) : SchemaQueryFilterer :=
  let qBuilder :=
    FilterToSubjectFilter
      (NewSchemaQueryFilterer pgSchema (filterToLivingObjects queryTuples revision))
      subjectFilter in
  match ReverseQueryOptions.ResRelation queryOpts with
  | Some resRelation =>
      FilterToRelation
        (FilterToResourceType qBuilder (RelationReference.Namespace resRelation))
        (RelationReference.Relation resRelation)
  | None => qBuilder
  end.

Definition reverseQueryTuplesSplitter (pgd : pgDatastore) (subjectFilter : SubjectFilter)
  (revision : Revision) (queryOpts : ReverseQueryOptions.t) : TupleQuerySplitter :=
  {| TupleQuerySplitter.Conn := dbpool pgd;
     TupleQuerySplitter.PrepareTransaction := None;
     TupleQuerySplitter.SplitAtEstimatedQuerySize := splitAtEstimatedQuerySize pgd;
     TupleQuerySplitter.FilteredQueryBuilder := reverseQueryTuplesBuilder subjectFilter revision queryOpts;
     TupleQuerySplitter.Revision := revision;
     TupleQuerySplitter.Limit := ReverseQueryOptions.ReverseLimit queryOpts;
     TupleQuerySplitter.Usersets := [];
     TupleQuerySplitter.DebugName := "ReverseQueryTuples" |}.

Definition ReverseQueryTuples (pgd : pgDatastore) (subjectFilter : SubjectFilter)
  (revision : Revision) (queryOpts : ReverseQueryOptions.t)
  : outcome (option TupleIterator * option error) :=
  SplitAndExecute ToSql (reverseQueryTuplesSplitter pgd subjectFilter revision queryOpts).

End Postgres.

(** The byte length of the operands of a relationship filter. *)
Definition relationshipFilterLength (filter : RelationshipFilter.t) : Z :=
  len_string (RelationshipFilter.ResourceType filter)
  + len_string (RelationshipFilter.OptionalResourceId filter)
  + len_string (RelationshipFilter.OptionalRelation filter)
  + match RelationshipFilter.OptionalSubjectFilter filter with
    | Some subjectFilter => subjectFilterLength subjectFilter
    | None => 0
    end.

(** The predicates a relationship filter stands for, over the columns of a
    schema: the resource type, then the resource id and the relation when
    they are given, then the subject filter's. *)
Definition relationshipFilterPredicates (s : SchemaInformation) (filter : RelationshipFilter.t)
  : list Sqlizer :=
  [Eq {[ ColNamespace s := RelationshipFilter.ResourceType filter ]}]
  ++ (if decide (RelationshipFilter.OptionalResourceId filter = "") then []
      else [Eq {[ ColObjectID s := RelationshipFilter.OptionalResourceId filter ]}])
  ++ (if decide (RelationshipFilter.OptionalRelation filter = "") then []
      else [Eq {[ ColRelation s := RelationshipFilter.OptionalRelation filter ]}])
  ++ match RelationshipFilter.OptionalSubjectFilter filter with
     | Some subjectFilter =>
         [Eq {[ ColUsersetNamespace s := SubjectType subjectFilter ]}]
         ++ (if decide (OptionalSubjectId subjectFilter = "") then []
             else [Eq {[ ColUsersetObjectID s := OptionalSubjectId subjectFilter ]}])
         ++ match subjectRelationName subjectFilter with
            | Some name => [Eq {[ ColUsersetRelation s := name ]}]
            | None => []
            end
     | None => []
     end.


(** A Postgres datastore over the sample columns; its filter on living rows
    adds nothing here. *)
Definition samplePg : pgDatastore :=
  {| dbpool := tenRowsPool; splitAtEstimatedQuerySize := DefaultSplitAtEstimatedQuerySize |}.

Definition livingRows (b : SelectBuilder) (revision : Revision) : SelectBuilder := b.

Definition folderViewers : RelationshipFilter.t :=
  {| RelationshipFilter.ResourceType := "document_folder";
     RelationshipFilter.OptionalResourceId := "";
     RelationshipFilter.OptionalRelation := "viewer";
     RelationshipFilter.OptionalSubjectFilter := Some groupMembers |}.

Definition threeAtMost : ReverseQueryOptions.t :=
  {| ReverseQueryOptions.ReverseLimit := Some 3;
     ReverseQueryOptions.ResRelation :=
       Some {| RelationReference.Namespace := "document"; RelationReference.Relation := "viewer" |} |}.


(** The predicates a subject filter stands for, over the columns of a
    schema. *)
Definition subjectFilterPredicates (s : SchemaInformation) (filter : SubjectFilter)
  : list Sqlizer :=
  [Eq {[ ColUsersetNamespace s := SubjectType filter ]}]
  ++ (if decide (OptionalSubjectId filter = "") then []
      else [Eq {[ ColUsersetObjectID s := OptionalSubjectId filter ]}])
  ++ match subjectRelationName filter with
     | Some name => [Eq {[ ColUsersetRelation s := name ]}]
     | None => []
     end.


(** * Test utilities: [RequireEqualEmptyNil] *)

(** What the function uses of package [reflect]. *)
Module reflect.

Inductive Kind : Type :=
| Invalid | Bool | Int | Int8 | Int16 | Int32 | Int64
| Uint | Uint8 | Uint16 | Uint32 | Uint64 | Uintptr
| Float32 | Float64 | Complex64 | Complex128
| Array | Chan | Func | Interface | Map | Ptr | Slice | String | Struct | UnsafePointer.

#[global] Instance Kind_eq_dec : EqDecision Kind.
Proof. solve_decision. Defined.

(** A [reflect.Value], as far as its kind and its number of elements go. *)
Record Value : Type := {
  kind : Kind;
  elements : nat
}.

(** [v.Len()] panics on a value whose kind has no length. *)
Definition Len (v : Value) : outcome Z :=
  match kind v with
  | Array | Chan | Map | Slice | String => Returns (Z.of_nat (elements v))
  | _ => Panics "reflect: call of reflect.Value.Len on a value without length"
  end.

End reflect.

Definition hasLength (k : reflect.Kind) : bool :=
  match k with
  | reflect.Array | reflect.Slice | reflect.Map => true
  | _ => false
  end.

Section RequireEqualEmptyNil.

(** The values of type [interface{}], [reflect.ValueOf] on them, and
    [require.Equal], which lets the test go on ([true]) or fails it. *)
Variable any : Type.
Variable ValueOf : any -> reflect.Value.
Variable requireEqual : any -> any -> bool.

(** Whether the test goes on after [RequireEqualEmptyNil(t, expected,
    actual)]; the conjuncts of the condition are evaluated from the left, as
    far as needed. *)
Definition RequireEqualEmptyNil (expected actual : any) : outcome bool :=
  let expectedVal := ValueOf expected in
  let actualVal := ValueOf actual in
  if bool_decide (reflect.kind expectedVal = reflect.kind actualVal) then
    if hasLength (reflect.kind expectedVal) then
      expectedLen ← reflect.Len expectedVal;
      if bool_decide (expectedLen = 0) then
        actualLen ← reflect.Len actualVal;
        if bool_decide (actualLen = 0) then Returns true
        else Returns (requireEqual expected actual)
      else Returns (requireEqual expected actual)
    else Returns (requireEqual expected actual)
  else Returns (requireEqual expected actual).

End RequireEqualEmptyNil.


(** The terms of the disjunction a query ends with, if it ends with one. *)
Definition usersetClauses (query : SchemaQueryFilterer) : list Sqlizer :=
  match last (WhereParts (queryBuilder query)) with
  | Some (Or clauses) => clauses
  | _ => []
  end.

(** * Properties *)

(** ** Machine integers *)

Lemma wrap_int_id (z : Z) : is_int z -> wrap_int z = z.
Proof.
  unfold is_int, int_min, int_max, wrap_int. intros Hz.
  rewrite Z.mod_small by lia. lia.
Qed.

Lemma wrap_int_add_l (a b : Z) : wrap_int (wrap_int a + b) = wrap_int (a + b).
Proof.
  unfold wrap_int.
  replace ((a + 2 ^ 63) mod 2 ^ 64 - 2 ^ 63 + b + 2 ^ 63)
    with ((a + 2 ^ 63) mod 2 ^ 64 + b) by lia.
  rewrite Zplus_mod_idemp_l. f_equal. f_equal. lia.
Qed.

Lemma wrap_int_add_r (a b : Z) : wrap_int (a + wrap_int b) = wrap_int (a + b).
Proof. rewrite (Z.add_comm a), wrap_int_add_l. f_equal. lia. Qed.

Lemma wrap_int_range (z : Z) : is_int (wrap_int z).
Proof.
  unfold is_int, int_min, int_max, wrap_int.
  pose proof (Z.mod_pos_bound (z + 2 ^ 63) (2 ^ 64)). lia.
Qed.

Lemma wrap_uint64_id (z : Z) : is_uint64 z -> wrap_uint64 z = z.
Proof.
  unfold is_uint64, uint64_max, wrap_uint64. intros Hz.
  apply Z.mod_small. lia.
Qed.

Lemma len_string_nonneg (s : string) : 0 <= len_string s.
Proof. unfold len_string. lia. Qed.

Lemma len_nonneg {A : Type} (l : list A) : 0 <= len l.
Proof. unfold len. lia. Qed.

Lemma len_app {A : Type} (l1 l2 : list A) : len (l1 ++ l2) = len l1 + len l2.
Proof. unfold len. rewrite length_app. lia. Qed.

(** The machine size of a userset is its plain size, reduced. *)
Lemma usersetSize_wrap (userset : ObjectAndRelation) :
  usersetSize userset = wrap_int (usersetLength userset).
Proof. unfold usersetSize, usersetLength, int_add. now rewrite wrap_int_add_l. Qed.

Lemma usersetLength_nonneg (userset : ObjectAndRelation) : 0 <= usersetLength userset.
Proof.
  unfold usersetLength.
  pose proof (len_string_nonneg (Namespace userset)).
  pose proof (len_string_nonneg (ObjectId userset)).
  pose proof (len_string_nonneg (Relation userset)).
  lia.
Qed.

Lemma partitionSize_nil (base : Z) : partitionSize base [] = base.
Proof. unfold partitionSize. simpl. lia. Qed.

Lemma partitionSize_snoc (base : Z) (part : list ObjectAndRelation) (userset : ObjectAndRelation) :
  partitionSize base (part ++ [userset]) = partitionSize base part + usersetLength userset.
Proof.
  unfold partitionSize. induction part as [|u part IH]; simpl in *; lia.
Qed.

Lemma partitionSize_app (base : Z) (p1 p2 : list ObjectAndRelation) :
  partitionSize base (p1 ++ p2) = partitionSize base p1 + partitionSize 0 p2.
Proof.
  unfold partitionSize. induction p1 as [|u p1 IH]; simpl in *; lia.
Qed.

Lemma partitionSize_ge (base : Z) (part : list ObjectAndRelation) : base <= partitionSize base part.
Proof.
  unfold partitionSize. induction part as [|u part IH]; simpl.
  - lia.
  - pose proof (usersetLength_nonneg u). lia.
Qed.

(** ** The filter builder *)

(** The loop of [FilterToUsersets] adds one map per userset to the clause and
    every machine size to the estimated size; nothing else changes. *)
Lemma usersetsStep_fold (usersets : list ObjectAndRelation) (orClause : list Sqlizer)
  (sqf : SchemaQueryFilterer) :
  usersets <> [] ->
  fold_left usersetsStep usersets (orClause, sqf) =
  (orClause ++ map (fun userset => Eq (usersetEq (schema sqf) userset)) usersets,
   set_currentEstimatedSize sqf (wrap_int (currentEstimatedSize sqf + partitionSize 0 usersets))).
Proof.
  destruct usersets as [|u0 usersets]; [congruence | intros _].
  revert orClause sqf u0.
  induction usersets as [|u usersets IH]; intros orClause sqf u0.
  - simpl. unfold partitionSize, int_add. simpl. f_equal. f_equal.
    rewrite usersetSize_wrap, wrap_int_add_r. f_equal. lia.
  - change (fold_left usersetsStep (u0 :: u :: usersets) (orClause, sqf))
      with (fold_left usersetsStep (u :: usersets) (usersetsStep (orClause, sqf) u0)).
    unfold usersetsStep at 2. rewrite IH. simpl. f_equal.
    + now rewrite <- app_assoc.
    + unfold set_currentEstimatedSize. simpl. f_equal.
      unfold int_add, partitionSize. simpl.
      rewrite usersetSize_wrap, wrap_int_add_r, wrap_int_add_l. f_equal. lia.
Qed.

(** C6. [FilterToUsersets] on an empty list panics: there is no error to
    return. On a non-empty list it returns a builder whose statement has one
    more WHERE part, a disjunction with one map per userset, in order; when
    the three subject columns are distinct, each map binds the subject type,
    subject id and subject relation columns to the fields of its userset and
    nothing else. The rest of the statement and the schema are unchanged. *)
Theorem FilterToUsersets_panics_or_adds_disjunction
  (sqf : SchemaQueryFilterer) (usersets : list ObjectAndRelation) :
  FilterToUsersets sqf [] = Panics "Got empty usersets filter" /\
  (usersets <> [] ->
   exists r,
     FilterToUsersets sqf usersets = Returns r /\
     WhereParts (queryBuilder r) =
       WhereParts (queryBuilder sqf) ++
       [Or (map (fun userset => Eq (usersetEq (schema sqf) userset)) usersets)] /\
     List.length (map (fun userset => Eq (usersetEq (schema sqf) userset)) usersets) =
       List.length usersets /\
     Columns (queryBuilder r) = Columns (queryBuilder sqf) /\
     From (queryBuilder r) = From (queryBuilder sqf) /\
     LimitPart (queryBuilder r) = LimitPart (queryBuilder sqf) /\
     schema r = schema sqf /\
     (ColUsersetNamespace (schema sqf) <> ColUsersetObjectID (schema sqf) ->
      ColUsersetNamespace (schema sqf) <> ColUsersetRelation (schema sqf) ->
      ColUsersetObjectID (schema sqf) <> ColUsersetRelation (schema sqf) ->
      forall userset, In userset usersets ->
        usersetEq (schema sqf) userset !! ColUsersetNamespace (schema sqf) = Some (Namespace userset) /\
        usersetEq (schema sqf) userset !! ColUsersetObjectID (schema sqf) = Some (ObjectId userset) /\
        usersetEq (schema sqf) userset !! ColUsersetRelation (schema sqf) = Some (Relation userset) /\
        size (usersetEq (schema sqf) userset) = 3%nat)).
Proof.
  split; [reflexivity |].
  intros Hne. unfold FilterToUsersets.
  destruct (decide (len usersets = 0)) as [Hlen | _].
  { destruct usersets; [congruence | unfold len in Hlen; simpl in Hlen; lia]. }
  rewrite (usersetsStep_fold usersets [] sqf Hne). simpl.
  eexists. split; [reflexivity |]. simpl.
  repeat split; try reflexivity.
  - apply length_map.
  - unfold usersetEq. now simplify_map_eq.
  - unfold usersetEq. now simplify_map_eq.
  - unfold usersetEq. now simplify_map_eq.
  - unfold usersetEq.
    rewrite !map_size_insert_None; [now rewrite map_size_empty | | |];
      now simplify_map_eq.
Qed.

Lemma FilterToUsersets_witness :
  exists r,
    FilterToUsersets emptyFilterer [userTom] = Returns r /\
    WhereParts (queryBuilder r) =
      [Or [Eq (usersetEq sampleSchema userTom)]].
Proof.
  destruct (FilterToUsersets_panics_or_adds_disjunction emptyFilterer [userTom])
    as [_ Hsome].
  destruct Hsome as (r & Hr & Hparts & _); [discriminate |].
  exists r. split; [exact Hr | exact Hparts].
Defined.

(** A builder after [FilterToSubjectFilter], field by field. *)
Lemma FilterToSubjectFilter_fields (sqf : SchemaQueryFilterer) (filter : SubjectFilter) :
  let idGiven := bool_decide (OptionalSubjectId filter <> "") in
  let relation := option_map (fun r => DefaultEmpty (FilterRelation r) Ellipsis) (OptionalRelation filter) in
  WhereParts (queryBuilder (FilterToSubjectFilter sqf filter)) =
    WhereParts (queryBuilder sqf)
    ++ [Eq {[ ColUsersetNamespace (schema sqf) := SubjectType filter ]}]
    ++ (if idGiven then [Eq {[ ColUsersetObjectID (schema sqf) := OptionalSubjectId filter ]}] else [])
    ++ match relation with
       | Some name => [Eq {[ ColUsersetRelation (schema sqf) := name ]}]
       | None => []
       end /\
  tracerAttributes (FilterToSubjectFilter sqf filter) =
    tracerAttributes sqf
    ++ [KeyString SubNamespaceNameKey (SubjectType filter)]
    ++ (if idGiven then [KeyString SubObjectIDKey (OptionalSubjectId filter)] else [])
    ++ match relation with
       | Some name => [KeyString SubRelationNameKey name]
       | None => []
       end /\
  currentEstimatedSize (FilterToSubjectFilter sqf filter) =
    wrap_int (currentEstimatedSize sqf
              + (len_string (SubjectType filter) + len_string (OptionalSubjectId filter)
                 + match relation with Some name => len_string name | None => 0 end)).
Proof.
  unfold FilterToSubjectFilter.
  destruct filter as [ty id rel]. simpl.
  destruct (decide (id = "")) as [Hid | Hid];
    [rewrite bool_decide_eq_false_2 by (intros H; now apply H)
    | rewrite bool_decide_eq_true_2 by exact Hid];
    destruct rel as [[r]|]; simpl;
    (split; [| split]);
    rewrite <- ?app_assoc, ?app_nil_r; try reflexivity;
    unfold int_add; rewrite ?wrap_int_add_r, ?wrap_int_add_l; f_equal; lia.
Qed.

(** C8. [FilterToSubjectFilter] adds, after the predicates already there: an
    equality on the subject type column, always; then an equality on the
    subject id column exactly when the subject id is not empty; then, when
    the relation is present, an equality on the subject relation column with
    the relation, an empty one replaced by the ellipsis. *)
Theorem FilterToSubjectFilter_predicates (sqf : SchemaQueryFilterer) (filter : SubjectFilter) :
  exists idPart relationPart,
    WhereParts (queryBuilder (FilterToSubjectFilter sqf filter)) =
      WhereParts (queryBuilder sqf)
      ++ [Eq {[ ColUsersetNamespace (schema sqf) := SubjectType filter ]}]
      ++ idPart ++ relationPart /\
    (OptionalSubjectId filter <> "" <->
       idPart = [Eq {[ ColUsersetObjectID (schema sqf) := OptionalSubjectId filter ]}]) /\
    (OptionalSubjectId filter = "" <-> idPart = []) /\
    (OptionalRelation filter = None <-> relationPart = []) /\
    (forall r, OptionalRelation filter = Some r -> FilterRelation r <> "" ->
       relationPart = [Eq {[ ColUsersetRelation (schema sqf) := FilterRelation r ]}]) /\
    (forall r, OptionalRelation filter = Some r -> FilterRelation r = "" ->
       relationPart = [Eq {[ ColUsersetRelation (schema sqf) := "..." ]}]).
Proof.
  destruct (FilterToSubjectFilter_fields sqf filter) as (Hparts & _ & _).
  eexists _, _. split; [exact Hparts |].
  destruct filter as [ty id rel]. simpl.
  repeat split.
  - intros Hid. now rewrite bool_decide_eq_true_2.
  - intros Heq Hid. rewrite bool_decide_eq_false_2 in Heq; [discriminate | tauto].
  - intros Hid. rewrite bool_decide_eq_false_2; [reflexivity | tauto].
  - intros Heq. destruct (decide (id = "")) as [Hid | Hid]; [exact Hid |].
    rewrite bool_decide_eq_true_2 in Heq; [discriminate | exact Hid].
  - intros ->. reflexivity.
  - destruct rel; [discriminate | reflexivity].
  - intros r [= ->] Hr. simpl. unfold DefaultEmpty.
    destruct (decide (FilterRelation r = "")); [contradiction | reflexivity].
  - intros r [= ->] Hr. simpl. unfold DefaultEmpty.
    destruct (decide (FilterRelation r = "")); [reflexivity | contradiction].
Qed.

Lemma FilterToSubjectFilter_predicates_witness :
  WhereParts (queryBuilder (FilterToSubjectFilter emptyFilterer groupMembers)) =
    [Eq {[ "userset_namespace" := "group" ]};
     Eq {[ "userset_object_id" := "eng" ]};
     Eq {[ "userset_relation" := "..." ]}].
Proof.
  destruct (FilterToSubjectFilter_predicates emptyFilterer groupMembers)
    as (idPart & relationPart & Hparts & [Hid _] & _ & _ & _ & Hrel).
  rewrite Hparts, (Hid ltac:(discriminate)), (Hrel _ eq_refl eq_refl).
  reflexivity.
Defined.

(** C7, as stated, fails: [FilterToUsersets] records no attribute at all, and
    [FilterToSubjectFilter] records three for a filter with a subject id and
    a relation. *)
Lemma filter_attributes_not_one_more :
  (exists r,
     FilterToUsersets emptyFilterer [userTom] = Returns r /\
     List.length (tracerAttributes r) = List.length (tracerAttributes emptyFilterer) /\
     List.length (tracerAttributes r) <> S (List.length (tracerAttributes emptyFilterer))) /\
  List.length (tracerAttributes (FilterToSubjectFilter emptyFilterer groupMembers)) = 3%nat /\
  List.length (tracerAttributes (FilterToSubjectFilter emptyFilterer groupMembers))
    <> S (List.length (tracerAttributes emptyFilterer)).
Proof.
  split.
  - eexists. split; [reflexivity |]. simpl. split; [reflexivity | discriminate].
  - simpl. split; [reflexivity | discriminate].
Qed.

(** C7, amended. The three resource filters add the byte length of their
    operand to the estimated size, in [int] arithmetic (the exact sum as long
    as it is an [int]), and one attribute to the list.
    [FilterToSubjectFilter] adds the byte lengths of the subject type, of the
    subject id and of the relation name it filters on, and one attribute for
    the subject type, one more for a non-empty subject id, one more for a
    relation. [FilterToUsersets], on a non-empty list, adds the byte lengths
    of the three fields of every userset and leaves the attributes as they
    are. *)
Theorem filters_grow_size_and_attributes
  (sqf : SchemaQueryFilterer) (operand : string) (filter : SubjectFilter)
  (usersets : list ObjectAndRelation) :
  let old := currentEstimatedSize sqf in
  (currentEstimatedSize (FilterToResourceType sqf operand) = wrap_int (old + len_string operand) /\
   currentEstimatedSize (FilterToResourceID sqf operand) = wrap_int (old + len_string operand) /\
   currentEstimatedSize (FilterToRelation sqf operand) = wrap_int (old + len_string operand) /\
   currentEstimatedSize (FilterToSubjectFilter sqf filter) = wrap_int (old + subjectFilterLength filter)) /\
  (is_int (old + len_string operand) ->
   currentEstimatedSize (FilterToResourceType sqf operand) = old + len_string operand /\
   currentEstimatedSize (FilterToResourceID sqf operand) = old + len_string operand /\
   currentEstimatedSize (FilterToRelation sqf operand) = old + len_string operand) /\
  (is_int (old + subjectFilterLength filter) ->
   currentEstimatedSize (FilterToSubjectFilter sqf filter) = old + subjectFilterLength filter) /\
  (tracerAttributes (FilterToResourceType sqf operand) =
     tracerAttributes sqf ++ [KeyString ObjNamespaceNameKey operand] /\
   tracerAttributes (FilterToResourceID sqf operand) =
     tracerAttributes sqf ++ [KeyString ObjIDKey operand] /\
   tracerAttributes (FilterToRelation sqf operand) =
     tracerAttributes sqf ++ [KeyString ObjRelationNameKey operand] /\
   tracerAttributes (FilterToSubjectFilter sqf filter) =
     tracerAttributes sqf ++ subjectFilterAttributes filter) /\
  (usersets <> [] ->
   exists r,
     FilterToUsersets sqf usersets = Returns r /\
     tracerAttributes r = tracerAttributes sqf /\
     currentEstimatedSize r = wrap_int (old + partitionSize 0 usersets) /\
     (is_int (old + partitionSize 0 usersets) ->
      currentEstimatedSize r = old + partitionSize 0 usersets)).
Proof.
  intros old.
  destruct (FilterToSubjectFilter_fields sqf filter) as (_ & Hattrs & Hsize).
  assert (Hsubject : currentEstimatedSize (FilterToSubjectFilter sqf filter)
                     = wrap_int (old + subjectFilterLength filter)) by exact Hsize.
  split; [| split; [| split; [| split]]].
  - repeat split; try reflexivity. exact Hsubject.
  - intros Hfit. simpl. unfold int_add. fold old. now rewrite wrap_int_id.
  - intros Hfit. now rewrite Hsubject, wrap_int_id.
  - repeat split; try reflexivity. exact Hattrs.
  - intros Hne. unfold FilterToUsersets.
    destruct (decide (len usersets = 0)) as [Hlen | _].
    { destruct usersets; [congruence | unfold len in Hlen; simpl in Hlen; lia]. }
    rewrite (usersetsStep_fold usersets [] sqf Hne). simpl.
    eexists. split; [reflexivity |]. simpl. fold old.
    repeat split. intros Hfit. now apply wrap_int_id.
Qed.

Lemma filters_grow_size_and_attributes_witness :
  currentEstimatedSize (FilterToResourceType emptyFilterer "document_folder") = 15 /\
  currentEstimatedSize (FilterToSubjectFilter emptyFilterer groupMembers) = 11 /\
  exists r,
    FilterToUsersets folderFilterer [userTom] = Returns r /\
    tracerAttributes r = tracerAttributes folderFilterer /\
    currentEstimatedSize r = 25.
Proof.
  destruct (filters_grow_size_and_attributes emptyFilterer "document_folder" groupMembers [userTom])
    as (_ & Hresource & Hsubject & _ & _).
  destruct (filters_grow_size_and_attributes folderFilterer "" groupMembers [userTom])
    as (_ & _ & _ & _ & Husersets).
  split; [| split].
  - apply Hresource. vm_compute. split; discriminate.
  - apply Hsubject. vm_compute. split; discriminate.
  - destruct Husersets as (r & Hr & Hattrs & _ & Hsize); [discriminate |].
    exists r. split; [exact Hr |]. split; [exact Hattrs |].
    apply Hsize. vm_compute. split; discriminate.
Defined.

(** ** The split scan *)

Lemma boundaries_snoc {A : Type} (start : nat) (parts : list (list A)) (part : list A) :
  boundaries start (parts ++ [part]) =
  boundaries start parts ++ [(start + List.length (concat parts) + List.length part)%nat].
Proof.
  revert start. induction parts as [|p parts IH]; intros start; simpl.
  - f_equal. lia.
  - rewrite IH, length_app. do 3 f_equal. lia.
Qed.

Lemma boundaries_bounds {A : Type} (start : nat) (parts : list (list A)) :
  Forall (fun part => part <> []) parts ->
  Forall (fun i => (start < i <= start + List.length (concat parts))%nat) (boundaries start parts).
Proof.
  revert start. induction parts as [|p parts IH]; intros start Hne; simpl.
  - constructor.
  - inversion Hne as [|? ? Hp Hrest]; subst.
    assert (0 < List.length p)%nat by (destruct p; [congruence | simpl; lia]).
    constructor.
    + rewrite length_app. lia.
    + eapply Forall_impl; [apply IH, Hrest |].
      intros i Hi. simpl in Hi. rewrite length_app. lia.
Qed.

Lemma boundaries_increasing {A : Type} (start : nat) (parts : list (list A)) :
  Forall (fun part => part <> []) parts ->
  StronglySorted lt (boundaries start parts).
Proof.
  revert start. induction parts as [|p parts IH]; intros start Hne; simpl.
  - constructor.
  - inversion Hne as [|? ? Hp Hrest]; subst.
    constructor; [apply IH, Hrest |].
    eapply Forall_impl; [apply boundaries_bounds, Hrest |].
    intros i Hi. simpl in Hi. lia.
Qed.

(** Cutting a list at the end offsets of its parts gives the parts back. *)
Lemma usersetSlices_boundaries (before : list ObjectAndRelation)
  (parts : list (list ObjectAndRelation)) (last : list ObjectAndRelation) :
  usersetSlices (before ++ concat parts ++ last) (List.length before)
    (boundaries (List.length before) parts) = Returns (parts ++ [last]).
Proof.
  revert before. induction parts as [|p parts IH]; intros before; simpl.
  - unfold sliceFrom, slice.
    rewrite decide_True by (rewrite length_app; lia).
    rewrite drop_app_length, length_app.
    replace (List.length before + List.length last - List.length before)%nat
      with (List.length last) by lia.
    now rewrite firstn_all.
  - unfold slice at 1.
    rewrite decide_True by (rewrite !length_app; lia).
    rewrite drop_app_length.
    replace (List.length before + List.length p - List.length before)%nat
      with (List.length p) by lia.
    rewrite <- app_assoc, take_app_length.
    specialize (IH (before ++ p)).
    rewrite length_app, <- !app_assoc in IH.
    cbn. now rewrite IH.
Qed.

Lemma scanFrom_app (base threshold : Z) (l1 l2 : list ObjectAndRelation) (index : nat)
  (st : scanState) :
  scanFrom base threshold index (l1 ++ l2) st =
  scanFrom base threshold (index + List.length l1)%nat l2 (scanFrom base threshold index l1 st).
Proof.
  revert index st. induction l1 as [|u l1 IH]; intros index st; simpl.
  - now rewrite Nat.add_0_r.
  - rewrite IH. f_equal. lia.
Qed.

Lemma scan_snoc (base threshold : Z) (before : list ObjectAndRelation) (userset : ObjectAndRelation) :
  scan base threshold (before ++ [userset]) =
  scanStep base threshold (scan base threshold before) (List.length before) userset.
Proof. unfold scan. now rewrite scanFrom_app. Qed.

Lemma specScan_snoc (base threshold : Z) (before : list ObjectAndRelation) (userset : ObjectAndRelation) :
  specScan base threshold (before ++ [userset]) =
  specScanStep base threshold (specScan base threshold before) userset.
Proof. unfold specScan. now rewrite fold_left_app. Qed.

Lemma scans_agree (base threshold : Z) (before : list ObjectAndRelation) :
  scansAgree base threshold before.
Proof.
  induction before as [|userset before IH] using rev_ind.
  - constructor; try reflexivity; [constructor | congruence].
  - destruct IH as [Hcount Hsize Hidx Hcat Hclosed Hcur].
    assert (Hguard : (0 <? currentUsersetCount (scan base threshold before))
                     = bool_decide (currentPartition (specScan base threshold before) <> [])).
    { rewrite Hcount. destruct before as [|u0 before'].
      - simpl. reflexivity.
      - rewrite bool_decide_eq_true_2 by (apply Hcur; discriminate).
        apply Z.ltb_lt. unfold len. simpl. lia. }
    pose proof (scan_snoc base threshold before userset) as Hc.
    pose proof (specScan_snoc base threshold before userset) as Hs.
    unfold scanStep in Hc. unfold specScanStep in Hs. rewrite Hguard, Hsize in Hc.
    destruct (bool_decide (currentPartition (specScan base threshold before) <> [])
              && (threshold <=? int_add (usersetSize userset)
                                  (runningSize (specScan base threshold before)))) eqn:Hsplit.
    + apply andb_prop in Hsplit as [Hnonempty _].
      apply bool_decide_eq_true_1 in Hnonempty.
      constructor; rewrite ?Hc, ?Hs; simpl.
      * rewrite Hcount, len_app. reflexivity.
      * reflexivity.
      * rewrite boundaries_snoc, Hidx. do 2 f_equal.
        rewrite Nat.add_0_l, <- length_app, Hcat. reflexivity.
      * rewrite concat_app. simpl. rewrite app_nil_r. now rewrite Hcat.
      * apply Forall_app. split; [exact Hclosed | constructor; [exact Hnonempty | constructor]].
      * discriminate.
    + constructor; rewrite ?Hc, ?Hs; simpl.
      * rewrite Hcount, len_app. reflexivity.
      * now rewrite Hsize.
      * exact Hidx.
      * rewrite app_assoc. now rewrite Hcat.
      * exact Hclosed.
      * intros _. destruct (currentPartition (specScan base threshold before)); discriminate.
Qed.

Lemma nonempty_len {A : Type} (l : list A) : l <> [] <-> 0 < len l.
Proof. unfold len. destruct l; simpl; split; intros; try congruence; lia. Qed.

Lemma FilterToUsersets_nonempty (sqf : SchemaQueryFilterer) (usersets : list ObjectAndRelation) :
  usersets <> [] ->
  FilterToUsersets sqf usersets =
  Returns
    (set_queryBuilder
       (set_currentEstimatedSize sqf
          (wrap_int (currentEstimatedSize sqf + partitionSize 0 usersets)))
       (Where (queryBuilder sqf)
          (Or (map (fun userset => Eq (usersetEq (schema sqf) userset)) usersets)))).
Proof.
  intros Hne. unfold FilterToUsersets.
  destruct (decide (len usersets = 0)) as [Hlen | _].
  { apply nonempty_len in Hne. lia. }
  now rewrite (usersetsStep_fold usersets [] sqf Hne).
Qed.

(** The slices cut by the code are the partitions of the specification. *)
Lemma splitPartitions_spec (ctq : TupleQuerySplitter) :
  splitPartitions ctq =
  Returns (specPartitions
             (currentEstimatedSize (TupleQuerySplitter.FilteredQueryBuilder ctq))
             (TupleQuerySplitter.SplitAtEstimatedQuerySize ctq)
             (TupleQuerySplitter.Usersets ctq)).
Proof.
  unfold splitPartitions, specPartitions.
  set (base := currentEstimatedSize (TupleQuerySplitter.FilteredQueryBuilder ctq)).
  set (threshold := TupleQuerySplitter.SplitAtEstimatedQuerySize ctq).
  set (usersets := TupleQuerySplitter.Usersets ctq).
  destruct (scans_agree base threshold usersets) as [_ _ Hidx Hcat _ _].
  rewrite Hidx. rewrite <- Hcat at 1.
  apply (usersetSlices_boundaries []).
Qed.

(** Every partition of the specification holds a userset, when there is
    one. *)
Lemma specPartitions_nonempty (base threshold : Z) (usersets : list ObjectAndRelation) :
  usersets <> [] ->
  Forall (fun part => part <> []) (specPartitions base threshold usersets).
Proof.
  intros Hne. unfold specPartitions.
  destruct (scans_agree base threshold usersets) as [_ _ _ _ Hclosed Hcur].
  apply Forall_app. split; [exact Hclosed |].
  constructor; [now apply Hcur | constructor].
Qed.

Lemma specPartitions_concat (base threshold : Z) (usersets : list ObjectAndRelation) :
  concat (specPartitions base threshold usersets) = usersets.
Proof.
  unfold specPartitions.
  destruct (scans_agree base threshold usersets) as [_ _ _ Hcat _ _].
  rewrite concat_app. simpl. now rewrite app_nil_r.
Qed.

(** The queries are the slices, each through [FilterToUsersets]. *)
Lemma sliceQueries_slices (base : SchemaQueryFilterer) (usersets : list ObjectAndRelation)
  (indexes : list nat) :
  forall (start : nat) (parts : list (list ObjectAndRelation)) (queries : list SchemaQueryFilterer),
    usersetSlices usersets start indexes = Returns parts ->
    Forall (fun part => part <> []) parts ->
    exists added,
      sliceQueries base usersets start indexes queries = Returns (queries ++ added) /\
      Forall2 (fun part query => FilterToUsersets base part = Returns query) parts added.
Proof.
  induction indexes as [|splitIndex indexes IH]; intros start parts queries Hslices Hne;
    cbn in Hslices |- *.
  - destruct (sliceFrom usersets start) as [part | msg]; cbn in Hslices |- *; [| discriminate].
    injection Hslices as <-.
    inversion Hne as [|? ? Hpart _]; subst.
    rewrite (FilterToUsersets_nonempty base part Hpart). cbn.
    eexists [_]. split; [reflexivity |].
    constructor; [now apply FilterToUsersets_nonempty | constructor].
  - destruct (slice usersets start splitIndex) as [part | msg]; cbn in Hslices |- *; [| discriminate].
    destruct (usersetSlices usersets splitIndex indexes) as [rest | msg] eqn:Hrest;
      cbn in Hslices; [| discriminate].
    injection Hslices as <-.
    inversion Hne as [|? ? Hpart Hparts]; subst.
    rewrite (FilterToUsersets_nonempty base part Hpart). cbn.
    destruct (IH splitIndex rest (queries ++ [set_queryBuilder
       (set_currentEstimatedSize base
          (wrap_int (currentEstimatedSize base + partitionSize 0 part)))
       (Where (queryBuilder base)
          (Or (map (fun userset => Eq (usersetEq (schema base) userset)) part)))])
       Hrest Hparts) as (added & Hq & Hall).
    eexists (_ :: added). split.
    + rewrite Hq, <- app_assoc. reflexivity.
    + constructor; [now apply FilterToUsersets_nonempty | exact Hall].
Qed.

Lemma splitQueries_partitions (ctq : TupleQuerySplitter) :
  TupleQuerySplitter.Usersets ctq <> [] ->
  exists queries,
    splitQueries ctq = Returns queries /\
    Forall2 (fun part query =>
               FilterToUsersets (TupleQuerySplitter.FilteredQueryBuilder ctq) part = Returns query)
      (specPartitions
         (currentEstimatedSize (TupleQuerySplitter.FilteredQueryBuilder ctq))
         (TupleQuerySplitter.SplitAtEstimatedQuerySize ctq)
         (TupleQuerySplitter.Usersets ctq))
      queries.
Proof.
  intros Hne. unfold splitQueries.
  rewrite decide_True by now apply nonempty_len.
  pose proof (splitPartitions_spec ctq) as Hparts. unfold splitPartitions in Hparts.
  destruct (sliceQueries_slices (TupleQuerySplitter.FilteredQueryBuilder ctq) _ _ 0%nat _ []
              Hparts (specPartitions_nonempty _ _ _ Hne)) as (added & Hq & Hall).
  exists added. split; [exact Hq | exact Hall].
Qed.

(** C5. For a non-empty userset list, whatever the threshold, the slices
    handed to [FilterToUsersets], put end to end in the order of the queries,
    are the userset list: nothing is left out, repeated or moved. *)
Theorem split_partitions_concat (ctq : TupleQuerySplitter) :
  TupleQuerySplitter.Usersets ctq <> [] ->
  exists parts queries,
    splitPartitions ctq = Returns parts /\
    splitQueries ctq = Returns queries /\
    Forall2 (fun part query =>
               FilterToUsersets (TupleQuerySplitter.FilteredQueryBuilder ctq) part = Returns query)
      parts queries /\
    concat parts = TupleQuerySplitter.Usersets ctq.
Proof.
  intros Hne.
  destruct (splitQueries_partitions ctq Hne) as (queries & Hq & Hall).
  eexists _, queries. split; [apply splitPartitions_spec |].
  split; [exact Hq |]. split; [exact Hall |].
  apply specPartitions_concat.
Qed.

Lemma split_partitions_concat_witness :
  exists parts,
    splitPartitions scenarioSplitter = Returns parts /\
    concat parts = [usersetA; usersetB; usersetC].
Proof.
  destruct (split_partitions_concat scenarioSplitter) as (parts & queries & Hparts & _ & _ & Hcat).
  - discriminate.
  - exists parts. split; [exact Hparts | exact Hcat].
Defined.

(** The split indexes are positions inside the list, in increasing order. *)
Lemma splitIndexes_inside (base threshold : Z) (usersets : list ObjectAndRelation) :
  usersets <> [] ->
  StronglySorted lt (splitIndexes (scan base threshold usersets)) /\
  Forall (fun i => (0 < i < List.length usersets)%nat) (splitIndexes (scan base threshold usersets)).
Proof.
  intros Hne.
  destruct (scans_agree base threshold usersets) as [_ _ Hidx Hcat Hclosed Hcur].
  rewrite Hidx. split; [now apply boundaries_increasing |].
  eapply Forall_impl; [apply boundaries_bounds, Hclosed |].
  intros i Hi. simpl in Hi.
  specialize (Hcur Hne).
  assert (0 < List.length (currentPartition (specScan base threshold usersets)))%nat
    by (destruct (currentPartition (specScan base threshold usersets)); [congruence | simpl; lia]).
  pose proof (f_equal (@List.length _) Hcat) as Hlen.
  rewrite length_app in Hlen. lia.
Qed.

Lemma boundaries_length {A : Type} (start : nat) (parts : list (list A)) :
  List.length (boundaries start parts) = List.length parts.
Proof.
  revert start. induction parts as [|p parts IH]; intros start; simpl; [| rewrite IH]; reflexivity.
Qed.

Lemma specPartitions_length (base threshold : Z) (usersets : list ObjectAndRelation) :
  List.length (specPartitions base threshold usersets) =
  S (List.length (splitIndexes (scan base threshold usersets))).
Proof.
  unfold specPartitions.
  destruct (scans_agree base threshold usersets) as [_ _ Hidx _ _ _].
  rewrite Hidx, length_app, boundaries_length. simpl. lia.
Qed.

Section NoPanic.

Variable ToSql : SelectBuilder -> error + Sql.

(** C9. For a non-empty userset list the split indexes increase strictly and
    lie strictly between zero and the length of the list; there is one slice
    more than there are indexes, every slice handed to [FilterToUsersets]
    holds a userset, every such call returns, and [SplitAndExecute] does not
    panic. *)
Theorem split_slices_never_empty (ctq : TupleQuerySplitter) :
  TupleQuerySplitter.Usersets ctq <> [] ->
  let indexes :=
    splitIndexes (scan (currentEstimatedSize (TupleQuerySplitter.FilteredQueryBuilder ctq))
                       (TupleQuerySplitter.SplitAtEstimatedQuerySize ctq)
                       (TupleQuerySplitter.Usersets ctq)) in
  StronglySorted lt indexes /\
  Forall (fun i => (0 < i < List.length (TupleQuerySplitter.Usersets ctq))%nat) indexes /\
  (exists parts queries,
     splitPartitions ctq = Returns parts /\
     List.length parts = S (List.length indexes) /\
     Forall (fun part => part <> []) parts /\
     splitQueries ctq = Returns queries /\
     Forall2 (fun part query =>
                FilterToUsersets (TupleQuerySplitter.FilteredQueryBuilder ctq) part = Returns query)
       parts queries) /\
  (exists result, SplitAndExecute ToSql ctq = Returns result).
Proof.
  intros Hne indexes.
  destruct (splitIndexes_inside
              (currentEstimatedSize (TupleQuerySplitter.FilteredQueryBuilder ctq))
              (TupleQuerySplitter.SplitAtEstimatedQuerySize ctq)
              (TupleQuerySplitter.Usersets ctq) Hne) as [Hsorted Hinside].
  destruct (splitQueries_partitions ctq Hne) as (queries & Hq & Hall).
  split; [exact Hsorted |]. split; [exact Hinside |]. split.
  - eexists _, queries. split; [apply splitPartitions_spec |].
    split; [apply specPartitions_length |].
    split; [now apply specPartitions_nonempty |].
    split; [exact Hq | exact Hall].
  - unfold SplitAndExecute. rewrite Hq. cbn.
    destruct (executeQueries ToSql ctq 0 queries []); eexists; reflexivity.
Qed.

End NoPanic.

Lemma split_slices_never_empty_witness :
  splitIndexes (scan 0 20 [usersetA; usersetB; usersetC]) = [2%nat] /\
  exists result, SplitAndExecute plainToSql scenarioSplitter = Returns result.
Proof.
  split; [reflexivity |].
  destruct (split_slices_never_empty plainToSql scenarioSplitter) as (_ & _ & _ & Hresult).
  - discriminate.
  - exact Hresult.
Defined.

(** The scan only ever appends the indexes it is at. *)
Lemma scanFrom_indexes (base threshold : Z) (usersets : list ObjectAndRelation) :
  forall (index : nat) (st : scanState),
  exists later,
    splitIndexes (scanFrom base threshold index usersets st) = splitIndexes st ++ later /\
    Forall (fun i => (index <= i)%nat) later.
Proof.
  induction usersets as [|userset usersets IH]; intros index st; simpl.
  - exists []. split; [now rewrite app_nil_r | constructor].
  - destruct (IH (S index) (scanStep base threshold st index userset)) as (later & Heq & Hlater).
    rewrite Heq. unfold scanStep.
    destruct ((0 <? currentUsersetCount st)
              && (threshold <=? int_add (usersetSize userset) (currentEstimatedDataSize st))); simpl.
    + exists (index :: later). split; [now rewrite <- app_assoc |].
      constructor; [lia |]. eapply Forall_impl; [exact Hlater |]. intros i Hi. simpl in Hi. lia.
    + exists later. split; [reflexivity |].
      eapply Forall_impl; [exact Hlater |]. intros i Hi. simpl in Hi. lia.
Qed.

(** A split index falls on a userset exactly when the scan, arriving there,
    holds a userset in the current partition and the userset's size added to
    the running size reaches the threshold. *)
Lemma split_before_iff (base threshold : Z) (before : list ObjectAndRelation)
  (userset : ObjectAndRelation) (after : list ObjectAndRelation) :
  In (List.length before) (splitIndexes (scan base threshold (before ++ userset :: after))) <->
  currentPartition (specScan base threshold before) <> [] /\
  threshold <= int_add (usersetSize userset) (runningSize (specScan base threshold before)).
Proof.
  unfold scan at 1. rewrite scanFrom_app. simpl. fold (scan base threshold before).
  destruct (scanFrom_indexes base threshold after (S (List.length before))
              (scanStep base threshold (scan base threshold before) (List.length before) userset))
    as (later & -> & Hlater).
  destruct (scans_agree base threshold before) as [Hcount Hsize _ Hcat _ Hcur].
  assert (Hearlier : ~ In (List.length before) (splitIndexes (scan base threshold before))).
  { destruct before as [|u0 before'].
    - simpl. tauto.
    - intros Hin.
      destruct (splitIndexes_inside base threshold (u0 :: before') ltac:(discriminate)) as [_ Hinside].
      rewrite List.Forall_forall in Hinside. specialize (Hinside _ Hin). lia. }
  assert (Hnotlater : ~ In (List.length before) later).
  { intros Hin. rewrite List.Forall_forall in Hlater. specialize (Hlater _ Hin). lia. }
  assert (Hguard : 0 < currentUsersetCount (scan base threshold before)
                   <-> currentPartition (specScan base threshold before) <> []).
  { rewrite Hcount. split.
    - intros Hpos. apply Hcur. now apply nonempty_len.
    - intros Hpart. apply nonempty_len. intros ->.
      rewrite app_nil_r in Hcat.
      destruct (currentPartition (specScan base threshold [])) eqn:Hinit; [congruence |].
      unfold specScan in Hinit. simpl in Hinit. discriminate. }
  unfold scanStep. rewrite Hsize.
  destruct ((0 <? currentUsersetCount (scan base threshold before))
            && (threshold <=? int_add (usersetSize userset)
                                (runningSize (specScan base threshold before)))) eqn:Hsplit; simpl.
  - apply andb_prop in Hsplit as [Hpos Hreach].
    apply Z.ltb_lt in Hpos. apply Z.leb_le in Hreach.
    split; [intros _; split; [now apply Hguard | exact Hreach] |].
    intros _. rewrite !in_app_iff. left. right. now left.
  - split.
    + rewrite in_app_iff. intros [Hin | Hin]; contradiction.
    + intros [Hpart Hreach]. apply Hguard in Hpart.
      apply andb_false_iff in Hsplit as [Hpos | Hno].
      * apply Z.ltb_ge in Hpos. lia.
      * apply Z.leb_gt in Hno. lia.
Qed.

(** C1. For a non-empty userset list, the slices the code cuts are the
    partitions of a single left-to-right scan whose running size starts from
    the estimated size of the base builder: the partition is closed just
    before a userset exactly when the current partition already holds a
    userset and the size of the userset added to the running size reaches the
    threshold; the running size then starts again from the base size and the
    userset opens the next partition. With threshold 20 and base size 0,
    usersets of sizes 2, 4 and 19 give two partitions, the first two usersets
    and the third alone. *)
Theorem split_scan_refines_specification (ctq : TupleQuerySplitter) :
  let base := currentEstimatedSize (TupleQuerySplitter.FilteredQueryBuilder ctq) in
  let threshold := TupleQuerySplitter.SplitAtEstimatedQuerySize ctq in
  let usersets := TupleQuerySplitter.Usersets ctq in
  usersets <> [] ->
  splitPartitions ctq = Returns (specPartitions base threshold usersets) /\
  (forall before userset after,
     usersets = before ++ userset :: after ->
     currentEstimatedDataSize (scan base threshold before)
       = runningSize (specScan base threshold before) /\
     (In (List.length before) (splitIndexes (scan base threshold usersets)) <->
      currentPartition (specScan base threshold before) <> [] /\
      threshold <= int_add (usersetSize userset) (runningSize (specScan base threshold before)))) /\
  (forall u1 u2 u3,
     base = 0 -> threshold = 20 -> usersets = [u1; u2; u3] ->
     usersetSize u1 = 2 -> usersetSize u2 = 4 -> usersetSize u3 = 19 ->
     splitPartitions ctq = Returns [[u1; u2]; [u3]]).
Proof.
  intros base threshold usersets Hne.
  split; [apply splitPartitions_spec |]. split.
  - intros before userset after Heq. split.
    + apply (agree_size _ _ _ (scans_agree base threshold before)).
    + rewrite Heq. apply split_before_iff.
  - intros u1 u2 u3 Hbase Hthreshold Husersets H1 H2 H3.
    rewrite splitPartitions_spec.
    fold base threshold usersets. rewrite Hbase, Hthreshold, Husersets.
    unfold specPartitions, specScan. simpl.
    assert (Hfirst : specScanStep 0 20 (specScanInit 0) u1 =
                     {| closedPartitions := []; currentPartition := [u1]; runningSize := 2 |}).
    { unfold specScanStep. simpl. now rewrite H1. }
    rewrite Hfirst.
    assert (Hsecond : specScanStep 0 20
                        {| closedPartitions := []; currentPartition := [u1]; runningSize := 2 |} u2 =
                      {| closedPartitions := []; currentPartition := [u1; u2]; runningSize := 6 |}).
    { unfold specScanStep. simpl. now rewrite H2. }
    rewrite Hsecond.
    assert (Hthird : specScanStep 0 20
                       {| closedPartitions := []; currentPartition := [u1; u2]; runningSize := 6 |} u3 =
                     {| closedPartitions := [[u1; u2]]; currentPartition := [u3]; runningSize := 19 |}).
    { unfold specScanStep. simpl. now rewrite H3. }
    rewrite Hthird. reflexivity.
Qed.

Lemma split_scan_refines_specification_witness :
  usersetSize usersetA = 2 /\ usersetSize usersetB = 4 /\ usersetSize usersetC = 19 /\
  splitPartitions scenarioSplitter = Returns [[usersetA; usersetB]; [usersetC]].
Proof.
  split; [reflexivity |]. split; [reflexivity |]. split; [reflexivity |].
  destruct (split_scan_refines_specification scenarioSplitter) as (_ & _ & Hscenario).
  - discriminate.
  - apply (Hscenario usersetA usersetB usersetC); reflexivity.
Defined.

(** ** Partition sizes *)

(** What the scan of the specification keeps when no sum overflows: the
    running size is the estimated size of the current partition, and a
    partition of two usersets or more is under the threshold. *)
Lemma specScan_sizes (base threshold : Z) (usersets : list ObjectAndRelation) :
  0 <= base ->
  partitionSize base usersets <= int_max ->
  runningSize (specScan base threshold usersets)
    = partitionSize base (currentPartition (specScan base threshold usersets)) /\
  Forall (fun part => partitionSize base part < threshold \/ exists userset, part = [userset])
    (closedPartitions (specScan base threshold usersets)) /\
  (currentPartition (specScan base threshold usersets) = [] \/
   partitionSize base (currentPartition (specScan base threshold usersets)) < threshold \/
   exists userset, currentPartition (specScan base threshold usersets) = [userset]).
Proof.
  intros Hbase.
  induction usersets as [|userset before IH] using rev_ind; intros Hfit.
  - unfold specScan. simpl. rewrite partitionSize_nil.
    split; [reflexivity |]. split; [constructor | now left].
  - rewrite partitionSize_snoc in Hfit.
    pose proof (usersetLength_nonneg userset) as Hpos.
    pose proof (partitionSize_ge base before) as Hge.
    destruct IH as (Hrunning & Hclosed & Hcurrent); [lia |].
    destruct (scans_agree base threshold before) as [_ _ _ Hcat _ Hcur].
    assert (Hpart : partitionSize base (currentPartition (specScan base threshold before))
                    <= partitionSize base before).
    { rewrite <- Hcat at 2.
      rewrite partitionSize_app.
      pose proof (partitionSize_ge 0 (currentPartition (specScan base threshold before))).
      pose proof (partitionSize_ge base (concat (closedPartitions (specScan base threshold before)))).
      unfold partitionSize in *. lia. }
    pose proof (partitionSize_ge base (currentPartition (specScan base threshold before))) as Hge'.
    assert (Hsize : usersetSize userset = usersetLength userset).
    { rewrite usersetSize_wrap. apply wrap_int_id.
      unfold is_int, int_min, int_max in *. lia. }
    rewrite specScan_snoc. unfold specScanStep. rewrite Hsize, Hrunning.
    assert (Hsum : int_add (usersetLength userset)
                     (partitionSize base (currentPartition (specScan base threshold before)))
                   = partitionSize base (currentPartition (specScan base threshold before))
                     + usersetLength userset).
    { unfold int_add. rewrite wrap_int_id; [lia |].
      unfold is_int, int_min, int_max in *. lia. }
    rewrite Hsum.
    destruct (bool_decide (currentPartition (specScan base threshold before) <> [])
              && (threshold <=? partitionSize base (currentPartition (specScan base threshold before))
                                + usersetLength userset)) eqn:Hsplit; simpl.
    + apply andb_prop in Hsplit as [Hnonempty _].
      apply bool_decide_eq_true_1 in Hnonempty.
      split; [| split].
      * unfold int_add, partitionSize. simpl. rewrite wrap_int_id; [lia |].
        unfold is_int, int_min, int_max in *. lia.
      * apply Forall_app. split; [exact Hclosed |].
        constructor; [| constructor].
        destruct Hcurrent as [Hnil | [Hunder | Hone]]; [contradiction | now left | now right].
      * right. right. now exists userset.
    + split; [| split].
      * rewrite partitionSize_snoc. unfold int_add. rewrite wrap_int_id; [reflexivity |].
        unfold is_int, int_min, int_max in *. lia.
      * exact Hclosed.
      * right. apply andb_false_iff in Hsplit as [Hempty | Hunder].
        -- apply bool_decide_eq_false_1 in Hempty.
           destruct (currentPartition (specScan base threshold before)) as [|u0 ?] eqn:Hcp.
           ++ right. now exists userset.
           ++ exfalso. apply Hempty. discriminate.
        -- left. apply Z.leb_gt in Hunder. rewrite partitionSize_snoc. lia.
Qed.

(** C2, as stated, fails: with base size 15 and threshold 20 a userset of
    size 10 makes a partition of size 25 although its own size does not
    exceed the threshold. *)
Lemma partition_reaches_threshold_with_small_userset :
  splitPartitions folderSplitter = Returns [[userTom]] /\
  currentEstimatedSize (TupleQuerySplitter.FilteredQueryBuilder folderSplitter) = 15 /\
  usersetLength userTom = 10 /\
  ~ (forall part, In part [[userTom]] ->
       partitionSize 15 part < 20 \/
       exists userset, part = [userset] /\ 20 < usersetLength userset).
Proof.
  split; [reflexivity |]. split; [reflexivity |]. split; [reflexivity |].
  intros Hall. destruct (Hall [userTom]) as [Hunder | (userset & Heq & Hover)].
  - now left.
  - vm_compute in Hunder. discriminate.
  - injection Heq as <-. vm_compute in Hover. discriminate.
Qed.

(** C2, amended. For a non-empty userset list whose sizes add up within an
    [int], every partition has an estimated size (base size and members)
    strictly under the threshold, except that a partition of one userset may
    reach or exceed it, base size included; every userset is in one
    partition. *)
Theorem partitions_under_threshold_or_single (ctq : TupleQuerySplitter) :
  let base := currentEstimatedSize (TupleQuerySplitter.FilteredQueryBuilder ctq) in
  let threshold := TupleQuerySplitter.SplitAtEstimatedQuerySize ctq in
  let usersets := TupleQuerySplitter.Usersets ctq in
  usersets <> [] ->
  0 <= base ->
  partitionSize base usersets <= int_max ->
  exists parts,
    splitPartitions ctq = Returns parts /\
    concat parts = usersets /\
    Forall (fun part =>
              partitionSize base part < threshold \/
              exists userset, part = [userset] /\ threshold <= partitionSize base [userset])
      parts.
Proof.
  intros base threshold usersets Hne Hbase Hfit.
  exists (specPartitions base threshold usersets).
  split; [apply splitPartitions_spec |]. split; [apply specPartitions_concat |].
  destruct (specScan_sizes base threshold usersets Hbase Hfit) as (_ & Hclosed & Hcurrent).
  destruct (scans_agree base threshold usersets) as [_ _ _ _ _ Hcur].
  assert (Hweak : Forall (fun part => partitionSize base part < threshold \/ exists userset, part = [userset])
                    (specPartitions base threshold usersets)).
  { unfold specPartitions. apply Forall_app. split; [exact Hclosed |].
    constructor; [| constructor].
    destruct Hcurrent as [Hnil | [Hunder | Hone]]; [now apply Hcur in Hnil | now left | now right]. }
  eapply Forall_impl; [exact Hweak |].
  intros part [Hunder | (userset & ->)]; simpl; [now left |].
  destruct (Z.lt_ge_cases (partitionSize base [userset]) threshold); [now left | right].
  now exists userset.
Qed.

Lemma partitions_under_threshold_or_single_witness :
  exists parts,
    splitPartitions scenarioSplitter = Returns parts /\
    Forall (fun part =>
              partitionSize 0 part < 20 \/
              exists userset, part = [userset] /\ 20 <= partitionSize 0 [userset])
      parts.
Proof.
  destruct (partitions_under_threshold_or_single scenarioSplitter) as (parts & Hparts & _ & Hall).
  - discriminate.
  - vm_compute. discriminate.
  - vm_compute. discriminate.
  - exists parts. split; [exact Hparts | exact Hall].
Defined.

(** ** Execution *)

Lemma int_of_uint64_le (limit : Z) : is_uint64 limit -> int_of_uint64 limit <= limit.
Proof.
  unfold is_uint64, uint64_max, int_of_uint64, wrap_int. intros Hl.
  destruct (Z_lt_le_dec limit (2 ^ 63)) as [Hsmall | Hbig].
  - rewrite Z.mod_small by lia. lia.
  - replace (limit + 2 ^ 63) with (limit - 2 ^ 63 + 1 * 2 ^ 64) by lia.
    rewrite Z_mod_plus_full, Z.mod_small by lia. lia.
Qed.

Lemma capAllows_check (limit held : Z) :
  capAllows limit held <-> (0 <? limit) && (int_of_uint64 limit <=? held) = false.
Proof.
  unfold capAllows. rewrite andb_false_iff, Z.ltb_ge, Z.leb_gt. reflexivity.
Qed.

Lemma capAllows_less (limit held held' : Z) :
  held' <= held -> capAllows limit held -> capAllows limit held'.
Proof. unfold capAllows. intros Hle [Hno | Hunder]; [now left | right; lia]. Qed.

Section ExecutionProperties.

Variable ToSql : SelectBuilder -> error + Sql.

(** The cursor loop hands back at most [limit] tuples when a cap is set. *)
Lemma readRows_capped (limit : Z) (rows : list rowResult) (rowsErr : option error) :
  0 < limit -> is_uint64 limit ->
  forall tuples found,
    readRows limit rows rowsErr tuples = (found, None) ->
    len tuples <= limit ->
    len found <= limit.
Proof.
  intros Hpos Hrange.
  induction rows as [|row rows IH]; intros tuples found Hread Hheld; simpl in Hread.
  - destruct rowsErr; [discriminate |]. now injection Hread as <-.
  - destruct ((0 <? limit) && (int_of_uint64 limit <=? len tuples)) eqn:Hcap.
    + now injection Hread as <-.
    + destruct row as [nextTuple | err]; [| discriminate].
      apply (IH _ _ Hread). rewrite len_app.
      apply capAllows_check in Hcap as [Hno | Hunder]; [lia |].
      pose proof (int_of_uint64_le limit Hrange). unfold len at 2. simpl. lia.
Qed.

Lemma readRows_error_shape (limit : Z) (rows : list rowResult) (rowsErr : option error) :
  forall tuples found err,
    readRows limit rows rowsErr tuples = (found, Some err) ->
    found = [] /\ exists cause, err = Errorf errUnableToQueryTuples cause.
Proof.
  induction rows as [|row rows IH]; intros tuples found err Hread; simpl in Hread.
  - destruct rowsErr as [cause|]; [| discriminate].
    injection Hread as <- <-. split; [reflexivity | now exists cause].
  - destruct ((0 <? limit) && (int_of_uint64 limit <=? len tuples)); [discriminate |].
    destruct row as [nextTuple | cause].
    + now apply (IH _ _ _ Hread).
    + injection Hread as <- <-. split; [reflexivity | now exists cause].
Qed.

Lemma readRows_decoding (limit : Z) (rowsErr : option error) (cause : error)
  (rest : list rowResult) (scanned : list RelationTuple) :
  forall tuples,
    capAllows limit (len tuples + len scanned) ->
    readRows limit (map ScanSucceeds scanned ++ ScanFails cause :: rest) rowsErr tuples
    = ([], Some (Errorf errUnableToQueryTuples cause)).
Proof.
  induction scanned as [|nextTuple scanned IH]; intros tuples Hcap; simpl.
  - replace (len tuples + len []) with (len tuples) in Hcap by (unfold len; simpl; lia).
    apply capAllows_check in Hcap. now rewrite Hcap.
  - assert (Hnow : capAllows limit (len tuples)).
    { eapply capAllows_less; [| exact Hcap]. pose proof (len_nonneg (nextTuple :: scanned)). lia. }
    apply capAllows_check in Hnow. rewrite Hnow.
    apply IH. rewrite len_app.
    replace (len tuples + len [nextTuple] + len scanned)
      with (len tuples + len (nextTuple :: scanned)) by (unfold len; simpl; lia).
    exact Hcap.
Qed.

Lemma readRows_iteration (limit : Z) (cause : error) (scanned : list RelationTuple) :
  forall tuples,
    scanned = [] \/ capAllows limit (len tuples + len scanned - 1) ->
    readRows limit (map ScanSucceeds scanned) (Some cause) tuples
    = ([], Some (Errorf errUnableToQueryTuples cause)).
Proof.
  induction scanned as [|nextTuple scanned IH]; intros tuples Hcap; simpl.
  - reflexivity.
  - destruct Hcap as [Hnil | Hcap]; [discriminate |].
    assert (Hnow : capAllows limit (len tuples)).
    { eapply capAllows_less; [| exact Hcap]. unfold len. simpl. lia. }
    apply capAllows_check in Hnow. rewrite Hnow.
    apply IH. destruct scanned as [|t scanned]; [now left | right].
    rewrite len_app.
    eapply capAllows_less; [| exact Hcap]. unfold len. simpl. lia.
Qed.

(** A failure at any stage makes [executeSingleQuery] return no tuple and
    the cause under the uniform prefix. *)
Lemma executeSingleQuery_fails (ctq : TupleQuerySplitter) (query : SchemaQueryFilterer)
  (index : nat) (limit : Z) (cause : error) :
  stageFailure ToSql ctq query index limit cause ->
  executeSingleQuery ToSql ctq query index limit = ([], Some (Errorf errUnableToQueryTuples cause)).
Proof.
  unfold executeSingleQuery. fold (prepared ctq index).
  intros [c Hsql | sql c Hsql Hbegin | sql c Hsql Hbegin Hprep
         | sql c Hsql Hbegin Hprep Hquery
         | sql rows scanned rest c Hsql Hbegin Hprep Hquery Hrows Hcap
         | sql rows scanned c Hsql Hbegin Hprep Hquery Hrows Herr Hcap];
    rewrite Hsql; try reflexivity; rewrite Hbegin; try reflexivity;
    rewrite Hprep; try reflexivity; rewrite Hquery; try reflexivity.
  - rewrite Hrows. apply readRows_decoding. exact Hcap.
  - rewrite Hrows, Herr. apply readRows_iteration.
    destruct Hcap as [Hnil | Hcap]; [now left | right].
    replace (len [] + len scanned - 1) with (len scanned - 1) by (unfold len; simpl; lia).
    exact Hcap.
Qed.

Lemma executeSingleQuery_error_shape (ctq : TupleQuerySplitter) (query : SchemaQueryFilterer)
  (index : nat) (limit : Z) (found : list RelationTuple) (err : error) :
  executeSingleQuery ToSql ctq query index limit = (found, Some err) ->
  found = [] /\ exists cause, err = Errorf errUnableToQueryTuples cause.
Proof.
  unfold executeSingleQuery. fold (prepared ctq index).
  destruct (ToSql (queryBuilder query)) as [c | sql].
  { intros [= <- <-]. split; [reflexivity | now exists c]. }
  destruct (BeginTx (TupleQuerySplitter.Conn ctq) index) as [c |].
  { intros [= <- <-]. split; [reflexivity | now exists c]. }
  destruct (prepared ctq index) as [c |].
  { intros [= <- <-]. split; [reflexivity | now exists c]. }
  destruct (Query (TupleQuerySplitter.Conn ctq) index sql) as [c | rows].
  { intros [= <- <-]. split; [reflexivity | now exists c]. }
  apply readRows_error_shape.
Qed.

Lemma executeSingleQuery_capped (ctq : TupleQuerySplitter) (query : SchemaQueryFilterer)
  (index : nat) (limit : Z) (found : list RelationTuple) :
  0 < limit -> is_uint64 limit ->
  executeSingleQuery ToSql ctq query index limit = (found, None) ->
  len found <= limit.
Proof.
  intros Hpos Hrange. unfold executeSingleQuery.
  destruct (ToSql (queryBuilder query)) as [c | sql]; [discriminate |].
  destruct (BeginTx (TupleQuerySplitter.Conn ctq) index) as [c |]; [discriminate |].
  destruct (match TupleQuerySplitter.PrepareTransaction ctq with
            | Some prepare => prepare index (TupleQuerySplitter.Revision ctq)
            | None => None
            end) as [c |]; [discriminate |].
  destruct (Query (TupleQuerySplitter.Conn ctq) index sql) as [c | rows]; [discriminate |].
  intros Hread. apply (readRows_capped limit _ _ Hpos Hrange _ _ Hread).
  unfold len. simpl. lia.
Qed.

End ExecutionProperties.

Lemma remaining_exact (limit held : Z) :
  is_uint64 limit -> 0 <= held <= limit ->
  uint64_sub limit (uint64_of_int held) = limit - held.
Proof.
  unfold is_uint64, uint64_max, uint64_sub, uint64_of_int, wrap_uint64. intros Hl Hh.
  rewrite (Z.mod_small held) by lia. apply Z.mod_small. lia.
Qed.

Section LoopProperties.

Variable ToSql : SelectBuilder -> error + Sql.

Lemma executeIteration_limit (ctq : TupleQuerySplitter) (limit : Z) (index : nat)
  (query : SchemaQueryFilterer) (tuples tuples' : list RelationTuple) :
  TupleQuerySplitter.Limit ctq = Some limit -> is_uint64 limit ->
  len tuples <= limit ->
  executeIteration ToSql ctq index query tuples = Continues tuples' ->
  len tuples' <= limit.
Proof.
  intros Hlimit Hrange Hheld. unfold executeIteration. rewrite Hlimit.
  rewrite (remaining_exact limit (len tuples) Hrange) by (pose proof (len_nonneg tuples); lia).
  destruct (limit - len tuples <=? 0) eqn:Hleft; [discriminate |].
  apply Z.leb_gt in Hleft.
  destruct (executeSingleQuery ToSql ctq (Limit query (limit - len tuples)) index
              (limit - len tuples)) as [found [err |]] eqn:Hrun; [discriminate |].
  intros [= <-]. rewrite len_app.
  assert (is_uint64 (limit - len tuples)).
  { pose proof (len_nonneg tuples). unfold is_uint64 in *. lia. }
  pose proof (executeSingleQuery_capped ToSql ctq _ _ _ _ Hleft H Hrun). lia.
Qed.

Lemma iterationStarts_limit (ctq : TupleQuerySplitter) (limit : Z)
  (queries : list SchemaQueryFilterer) (k : nat) (tuples : list RelationTuple) :
  TupleQuerySplitter.Limit ctq = Some limit -> is_uint64 limit ->
  iterationStarts ToSql ctq queries k tuples ->
  len tuples <= limit.
Proof.
  intros Hlimit Hrange Hstarts.
  induction Hstarts as [|k query tuples tuples' _ IH _ Hiter].
  - unfold len, is_uint64 in *. simpl. lia.
  - exact (executeIteration_limit ctq limit k query tuples tuples' Hlimit Hrange IH Hiter).
Qed.

Lemma executeQueries_limit (ctq : TupleQuerySplitter) (limit : Z)
  (queries : list SchemaQueryFilterer) :
  TupleQuerySplitter.Limit ctq = Some limit -> is_uint64 limit ->
  forall index tuples final,
    len tuples <= limit ->
    executeQueries ToSql ctq index queries tuples = inr final ->
    len final <= limit.
Proof.
  intros Hlimit Hrange.
  induction queries as [|query queries IH]; intros index tuples final Hheld; simpl.
  - now intros [= <-].
  - destruct (executeIteration ToSql ctq index query tuples) as [tuples' | | err] eqn:Hiter.
    + apply IH. exact (executeIteration_limit ctq limit index query tuples tuples' Hlimit Hrange Hheld Hiter).
    + now intros [= <-].
    + discriminate.
Qed.

(** The loop, run from the start, goes through the turns [iterationStarts]
    counts. *)
Lemma executeQueries_resume (ctq : TupleQuerySplitter) (queries : list SchemaQueryFilterer)
  (k : nat) (tuples : list RelationTuple) :
  iterationStarts ToSql ctq queries k tuples ->
  executeQueries ToSql ctq 0 queries [] = executeQueries ToSql ctq k (drop k queries) tuples.
Proof.
  intros Hstarts.
  induction Hstarts as [|k query tuples tuples' _ IH Hquery Hiter].
  - reflexivity.
  - rewrite IH, (drop_S _ _ _ Hquery). simpl. now rewrite Hiter.
Qed.

Lemma executeIteration_error_shape (ctq : TupleQuerySplitter) (index : nat)
  (query : SchemaQueryFilterer) (tuples : list RelationTuple) (err : error) :
  executeIteration ToSql ctq index query tuples = ReturnsError err ->
  exists cause, err = Errorf errUnableToQueryTuples cause.
Proof.
  unfold executeIteration.
  destruct (TupleQuerySplitter.Limit ctq) as [limit |].
  - destruct (uint64_sub limit (uint64_of_int (len tuples)) <=? 0); [discriminate |].
    destruct (executeSingleQuery ToSql ctq _ index _) as [found [e |]] eqn:Hrun; [| discriminate].
    intros [= <-]. now apply executeSingleQuery_error_shape in Hrun as [_ Hcause].
  - destruct (executeSingleQuery ToSql ctq query index 0) as [found [e |]] eqn:Hrun; [| discriminate].
    intros [= <-]. now apply executeSingleQuery_error_shape in Hrun as [_ Hcause].
Qed.

Lemma executeQueries_error_shape (ctq : TupleQuerySplitter) (queries : list SchemaQueryFilterer) :
  forall index tuples err,
    executeQueries ToSql ctq index queries tuples = inl err ->
    exists cause, err = Errorf errUnableToQueryTuples cause.
Proof.
  induction queries as [|query queries IH]; intros index tuples err; simpl; [discriminate |].
  destruct (executeIteration ToSql ctq index query tuples) as [tuples' | | e] eqn:Hiter.
  - apply IH.
  - discriminate.
  - intros [= <-]. now apply executeIteration_error_shape in Hiter.
Qed.

Lemma executeIteration_fails (ctq : TupleQuerySplitter) (index : nat)
  (query executed : SchemaQueryFilterer) (tuples : list RelationTuple) (cap : Z) (cause : error) :
  executes ctq query tuples executed cap ->
  stageFailure ToSql ctq executed index cap cause ->
  executeIteration ToSql ctq index query tuples = ReturnsError (Errorf errUnableToQueryTuples cause).
Proof.
  unfold executes, executeIteration. intros Hexec Hfail.
  destruct (TupleQuerySplitter.Limit ctq) as [limit |].
  - destruct Hexec as (Hcap & Hpos & ->). rewrite <- Hcap.
    apply Z.leb_gt in Hpos. rewrite Hpos.
    now rewrite (executeSingleQuery_fails ToSql ctq _ index cap cause Hfail).
  - destruct Hexec as (-> & ->).
    now rewrite (executeSingleQuery_fails ToSql ctq _ index 0 cause Hfail).
Qed.

End LoopProperties.

Section ExecutionLoop.

Variable ToSql : SelectBuilder -> error + Sql.

(** C3. A failure at any stage of a partition's execution (rendering the
    statement, beginning the transaction, the preparation hook, sending the
    statement, decoding a row, the end of the row iteration) makes
    [executeSingleQuery] return no tuple and the cause under the uniform
    prefix; when it happens in a partition the loop comes to execute,
    whatever the earlier partitions produced, [SplitAndExecute] returns no
    iterator and that one error. An error never comes with an iterator, and
    it always wraps its cause under the prefix. *)
Theorem failure_returns_error_alone (ctq : TupleQuerySplitter) :
  (forall query index limit cause,
     stageFailure ToSql ctq query index limit cause ->
     executeSingleQuery ToSql ctq query index limit
     = ([], Some (Errorf errUnableToQueryTuples cause))) /\
  (forall queries k query tuples executed cap cause,
     splitQueries ctq = Returns queries ->
     iterationStarts ToSql ctq queries k tuples ->
     queries !! k = Some query ->
     executes ctq query tuples executed cap ->
     stageFailure ToSql ctq executed k cap cause ->
     SplitAndExecute ToSql ctq = Returns (None, Some (Errorf errUnableToQueryTuples cause))) /\
  (forall iterator err,
     SplitAndExecute ToSql ctq = Returns (iterator, Some err) ->
     iterator = None /\
     exists cause,
       err = Errorf errUnableToQueryTuples cause /\
       Unwrap err = Some cause /\
       error_message err = String.append "unable to query tuples: " (error_message cause)) /\
  (forall iterator,
     SplitAndExecute ToSql ctq = Returns (iterator, None) -> is_Some iterator).
Proof.
  split; [| split; [| split]].
  - intros query index limit cause. apply executeSingleQuery_fails.
  - intros queries k query tuples executed cap cause Hqueries Hstarts Hquery Hexec Hfail.
    unfold SplitAndExecute. rewrite Hqueries. cbn.
    rewrite (executeQueries_resume ToSql ctq queries k tuples Hstarts), (drop_S _ _ _ Hquery).
    simpl. now rewrite (executeIteration_fails ToSql ctq k query executed tuples cap cause Hexec Hfail).
  - intros iterator err. unfold SplitAndExecute.
    destruct (splitQueries ctq) as [queries | msg]; cbn; [| discriminate].
    destruct (executeQueries ToSql ctq 0 queries []) as [e | tuples] eqn:Hrun; [| discriminate].
    intros [= <- <-]. split; [reflexivity |].
    apply executeQueries_error_shape in Hrun as [cause ->].
    exists cause. repeat split.
  - intros iterator. unfold SplitAndExecute.
    destruct (splitQueries ctq) as [queries | msg]; cbn; [| discriminate].
    destruct (executeQueries ToSql ctq 0 queries []) as [e | tuples]; [discriminate |].
    intros [= <-]. now eexists.
Qed.

(** C10. With a limit set, every turn of the execution loop starts with at
    most that many tuples, so the remaining count is the plain difference,
    without wrap-around; a partition returns at most its cap; the loop ends
    with at most the limit. *)
Theorem limit_bounds_every_iteration (ctq : TupleQuerySplitter) (limit : Z)
  (queries : list SchemaQueryFilterer) :
  TupleQuerySplitter.Limit ctq = Some limit ->
  is_uint64 limit ->
  (forall k tuples,
     iterationStarts ToSql ctq queries k tuples ->
     len tuples <= limit /\
     uint64_sub limit (uint64_of_int (len tuples)) = limit - len tuples) /\
  (forall query index cap found,
     0 < cap -> is_uint64 cap ->
     executeSingleQuery ToSql ctq query index cap = (found, None) ->
     len found <= cap) /\
  (forall tuples,
     executeQueries ToSql ctq 0 queries [] = inr tuples -> len tuples <= limit) /\
  (forall iterator err,
     SplitAndExecute ToSql ctq = Returns (Some iterator, err) ->
     len (iteratorTuples iterator) <= limit).
Proof.
  intros Hlimit Hrange. split; [| split; [| split]].
  - intros k tuples Hstarts.
    pose proof (iterationStarts_limit ToSql ctq limit queries k tuples Hlimit Hrange Hstarts) as Hheld.
    split; [exact Hheld |].
    apply remaining_exact; [exact Hrange |]. pose proof (len_nonneg tuples). lia.
  - intros query index cap found. apply executeSingleQuery_capped.
  - intros tuples. apply (executeQueries_limit ToSql ctq limit queries Hlimit Hrange).
    unfold len, is_uint64 in *. simpl. lia.
  - intros iterator err. unfold SplitAndExecute.
    destruct (splitQueries ctq) as [qs | msg]; cbn; [| discriminate].
    destruct (executeQueries ToSql ctq 0 qs []) as [e | tuples] eqn:Hrun; [discriminate |].
    intros [= <- <-]. simpl.
    apply (executeQueries_limit ToSql ctq limit qs Hlimit Hrange 0%nat [] tuples); [| exact Hrun].
    unfold len, is_uint64 in *. simpl. lia.
Qed.

End ExecutionLoop.

Lemma failure_returns_error_alone_witness :
  SplitAndExecute plainToSql secondFailsSplitter
  = Returns (None, Some (Errorf errUnableToQueryTuples brokenRow)).
Proof.
  destruct (failure_returns_error_alone plainToSql secondFailsSplitter) as (_ & Hloop & _).
  eapply (Hloop _ 1%nat _ [viewerOf "1"; viewerOf "2"]).
  - reflexivity.
  - eapply starts_next; [apply starts_first | reflexivity | reflexivity].
  - reflexivity.
  - split; reflexivity.
  - eapply fails_decoding with (scanned := []); try reflexivity.
    left. reflexivity.
Defined.

Lemma limit_bounds_every_iteration_witness :
  exists iterator,
    SplitAndExecute plainToSql limitedSplitter = Returns (Some iterator, None) /\
    len (iteratorTuples iterator) <= 5.
Proof.
  eexists. split; [reflexivity |].
  destruct (limit_bounds_every_iteration plainToSql limitedSplitter 5 []) as (_ & _ & _ & Hresult).
  - reflexivity.
  - split; discriminate.
  - eapply Hresult. reflexivity.
Defined.

(** C4 at the limit 2^63: one query, one matching row, and no tuple comes
    back, where the smaller of the limit and the row count is one. The cap
    handed to [executeSingleQuery] is converted to a negative [int], so the
    first row already counts as beyond the cap. *)
Lemma huge_limit_returns_no_tuple :
  TupleQuerySplitter.Limit hugeLimitSplitter = Some (2 ^ 63) /\
  is_uint64 (2 ^ 63) /\
  Query (TupleQuerySplitter.Conn hugeLimitSplitter) 0 ("relation_tuple", [])
    = inr {| rowResults := [ScanSucceeds (viewerOf "1")]; rowsErr := None |} /\
  int_of_uint64 (2 ^ 63) = - 2 ^ 63 /\
  SplitAndExecute plainToSql hugeLimitSplitter = Returns (Some (NewSliceTupleIterator []), None) /\
  Z.min (2 ^ 63) 1 = 1.
Proof.
  split; [reflexivity |]. split; [split; discriminate |].
  split; [reflexivity |]. split; [reflexivity |]. split; reflexivity.
Qed.

(** ** The limit, below 2^63 *)

Lemma take_app_take {A : Type} (n : nat) (a b c : list A) :
  take n ((a ++ take (n - List.length a) b) ++ c) = take n (a ++ b ++ c).
Proof.
  destruct (Nat.le_gt_cases (List.length b) (n - List.length a)) as [Hall | Hcut].
  - rewrite (take_ge b) by exact Hall. now rewrite <- app_assoc.
  - destruct (Nat.le_gt_cases n (List.length a)) as [Hfull | Hroom].
    + replace (n - List.length a)%nat with 0%nat by lia. simpl. rewrite app_nil_r.
      rewrite !take_app_le by lia. reflexivity.
    + assert (Hlen : List.length (a ++ take (n - List.length a) b) = n).
      { rewrite length_app, length_take. lia. }
      rewrite take_app_le by lia. rewrite take_ge by lia.
      rewrite (take_app_ge a) by lia. rewrite (take_app_le b) by lia. reflexivity.
Qed.

Section SmallLimit.

Variable ToSql : SelectBuilder -> error + Sql.

(** With a cap below 2^63 and no failure the cursor loop stops at the cap. *)
Lemma readRows_takes (cap : Z) (rows : list RelationTuple) :
  0 < cap <= int_max ->
  forall tuples,
    len tuples <= cap ->
    readRows cap (map ScanSucceeds rows) None tuples
    = (tuples ++ take (Z.to_nat (cap - len tuples)) rows, None).
Proof.
  intros Hcap.
  assert (Hint : int_of_uint64 cap = cap).
  { apply wrap_int_id. unfold is_int, int_min, int_max in *. lia. }
  induction rows as [|row rows IH]; intros tuples Hheld; simpl.
  - now rewrite take_nil, app_nil_r.
  - rewrite Hint. replace (0 <? cap) with true by (symmetry; apply Z.ltb_lt; lia). simpl.
    destruct (cap <=? len tuples) eqn:Hfull.
    + apply Z.leb_le in Hfull. replace (cap - len tuples) with 0 by lia.
      simpl. now rewrite app_nil_r.
    + apply Z.leb_gt in Hfull. rewrite IH by (rewrite len_app; unfold len at 2; simpl; lia).
      rewrite len_app, <- app_assoc. unfold len at 2. simpl.
      replace (Z.to_nat (cap - len tuples)) with (S (Z.to_nat (cap - (len tuples + 1)))) by lia.
      reflexivity.
Qed.

Lemma executeIteration_takes (ctq : TupleQuerySplitter) (limit : Z)
  (queries : list SchemaQueryFilterer) (matching : nat -> list RelationTuple)
  (index : nat) (query : SchemaQueryFilterer) (tuples : list RelationTuple) :
  TupleQuerySplitter.Limit ctq = Some limit ->
  0 <= limit <= int_max ->
  answers ToSql ctq queries matching ->
  queries !! index = Some query ->
  len tuples < limit ->
  executeIteration ToSql ctq index query tuples
  = Continues (tuples ++ take (Z.to_nat (limit - len tuples)) (matching index)).
Proof.
  intros Hlimit Hrange Hanswers Hquery Hheld.
  pose proof (len_nonneg tuples) as Hnonneg.
  unfold executeIteration. rewrite Hlimit.
  rewrite remaining_exact by (unfold is_uint64, uint64_max, int_max in *; lia).
  replace (limit - len tuples <=? 0) with false by (symmetry; apply Z.leb_gt; lia).
  destruct (Hanswers index query (limit - len tuples) Hquery ltac:(lia))
    as (sql & returned & Hsql & Hbegin & Hprep & Hrows & Hprefix & Hmany).
  unfold executeSingleQuery. fold (prepared ctq index).
  rewrite Hsql, Hbegin, Hprep, Hrows. simpl.
  rewrite readRows_takes by (unfold len, int_max in *; simpl; lia).
  simpl. do 2 f_equal.
  replace (limit - len tuples - len []) with (limit - len tuples) by (unfold len; simpl; lia).
  rewrite Hprefix, take_take.
  destruct (Z.le_gt_cases (limit - len tuples) (len returned)) as [Hcut | Hall].
  - f_equal. unfold len in *. lia.
  - assert (List.length (matching index) <= List.length returned)%nat by (unfold len in *; lia).
    rewrite !take_ge; [reflexivity | unfold len in *; lia ..].
Qed.

Lemma executeQueries_takes (ctq : TupleQuerySplitter) (limit : Z)
  (queries : list SchemaQueryFilterer) (matching : nat -> list RelationTuple) :
  TupleQuerySplitter.Limit ctq = Some limit ->
  0 <= limit <= int_max ->
  answers ToSql ctq queries matching ->
  forall remaining index tuples,
    drop index queries = remaining ->
    len tuples <= limit ->
    executeQueries ToSql ctq index remaining tuples
    = inr (take (Z.to_nat limit)
             (tuples ++ matchingFrom matching index (List.length remaining))).
Proof.
  intros Hlimit Hrange Hanswers.
  induction remaining as [|query remaining IH]; intros index tuples Hdrop Hheld; simpl.
  - rewrite app_nil_r, take_ge; [reflexivity | unfold len in *; lia].
  - assert (Hquery : queries !! index = Some query).
    { rewrite <- (Nat.add_0_r index), <- lookup_drop, Hdrop. reflexivity. }
    assert (Hnext : drop (S index) queries = remaining).
    { replace (S index) with (index + 1)%nat by lia.
      rewrite <- (drop_drop queries 1 index), Hdrop. reflexivity. }
    destruct (Z.eq_dec (len tuples) limit) as [Hfull | Hroom].
    + unfold executeIteration. rewrite Hlimit.
      rewrite remaining_exact by (unfold is_uint64, uint64_max, int_max in *; pose proof (len_nonneg tuples); lia).
      replace (limit - len tuples <=? 0) with true by (symmetry; apply Z.leb_le; lia).
      f_equal. rewrite take_app_le by (unfold len in *; lia).
      rewrite take_ge; [reflexivity | unfold len in *; lia].
    + rewrite (executeIteration_takes ctq limit queries matching index query tuples
                 Hlimit Hrange Hanswers Hquery ltac:(lia)).
      rewrite (IH (S index) _ Hnext).
      * f_equal.
        replace (Z.to_nat (limit - len tuples)) with (Z.to_nat limit - List.length tuples)%nat
          by (unfold len; lia).
        apply take_app_take.
      * rewrite len_app. unfold len at 2. rewrite length_take. unfold len in *. lia.
Qed.

(** Below 2^63 the limit is honoured to the row: the tuples returned are the
    first [limit] of all the matching rows, partition after partition, so
    their number is the smaller of the limit and the row count; and a turn
    that starts with the limit reached executes nothing. *)
Lemma small_limit_returns_min (ctq : TupleQuerySplitter) (limit : Z)
  (queries : list SchemaQueryFilterer) (matching : nat -> list RelationTuple) :
  TupleQuerySplitter.Limit ctq = Some limit ->
  0 <= limit <= int_max ->
  splitQueries ctq = Returns queries ->
  answers ToSql ctq queries matching ->
  let rows := matchingFrom matching 0 (List.length queries) in
  SplitAndExecute ToSql ctq
    = Returns (Some (NewSliceTupleIterator (take (Z.to_nat limit) rows)), None) /\
  len (take (Z.to_nat limit) rows) = Z.min limit (len rows) /\
  (forall index query tuples,
     limit <= len tuples -> len tuples <= limit ->
     executeIteration ToSql ctq index query tuples = Breaks).
Proof.
  intros Hlimit Hrange Hqueries Hanswers rows. split; [| split].
  - unfold SplitAndExecute. rewrite Hqueries. cbn.
    rewrite (executeQueries_takes ctq limit queries matching Hlimit Hrange Hanswers queries 0%nat []);
      [reflexivity | reflexivity | unfold len; simpl; lia].
  - unfold len. rewrite length_take. lia.
  - intros index query tuples Hge Hle. unfold executeIteration. rewrite Hlimit.
    rewrite remaining_exact by (unfold is_uint64, uint64_max, int_max in *; pose proof (len_nonneg tuples); lia).
    replace (limit - len tuples <=? 0) with true by (symmetry; apply Z.leb_le; lia).
    reflexivity.
Qed.

End SmallLimit.

(** Limit 5 over three partitions of ten rows: the five tuples are the first
    five rows of the first partition. *)
Example limit_five_of_thirty :
  SplitAndExecute plainToSql limitedSplitter
  = Returns (Some (NewSliceTupleIterator (take 5 tenRows)), None).
Proof.
  destruct (small_limit_returns_min plainToSql limitedSplitter 5
              (match splitQueries limitedSplitter with Returns queries => queries | Panics _ => [] end)
              (fun _ => tenRows)) as (Hresult & _ & _).
  - reflexivity.
  - split; discriminate.
  - reflexivity.
  - intros index query cap _ Hcap.
    exists (From (queryBuilder query), []), tenRows.
    repeat split; try reflexivity.
    apply Z.le_min_r.
  - exact Hresult.
Qed.

(** * Further properties of the splitter *)

(** ** How many queries *)

Lemma nonempty_parts_length {A : Type} (parts : list (list A)) :
  Forall (fun part => part <> []) parts ->
  (List.length parts <= List.length (concat parts))%nat.
Proof.
  induction parts as [|part parts IH]; intros Hne; simpl; [lia |].
  inversion Hne as [|? ? Hpart Hparts]; subst.
  rewrite length_app. specialize (IH Hparts).
  destruct part; [congruence | simpl; lia].
Qed.

(** X1. For a non-empty userset list there is at least one query and at most one
    per userset; a single userset is one query, whatever the threshold and
    the sizes. *)
Theorem split_query_count (ctq : TupleQuerySplitter) :
  TupleQuerySplitter.Usersets ctq <> [] ->
  exists queries,
    splitQueries ctq = Returns queries /\
    (1 <= List.length queries <= List.length (TupleQuerySplitter.Usersets ctq))%nat.
Proof.
  intros Hne.
  destruct (splitQueries_partitions ctq Hne) as (queries & Hq & Hall).
  exists queries. split; [exact Hq |].
  apply Forall2_length in Hall. rewrite <- Hall.
  pose proof (nonempty_parts_length _ (specPartitions_nonempty
    (currentEstimatedSize (TupleQuerySplitter.FilteredQueryBuilder ctq))
    (TupleQuerySplitter.SplitAtEstimatedQuerySize ctq) _ Hne)) as Hlen.
  rewrite specPartitions_concat in Hlen.
  rewrite specPartitions_length in *. lia.
Qed.

Lemma split_query_count_witness :
  exists queries,
    splitQueries folderSplitter = Returns queries /\ List.length queries = 1%nat.
Proof.
  destruct (split_query_count folderSplitter) as (queries & Hq & Hlen).
  - discriminate.
  - exists queries. split; [exact Hq |]. simpl in Hlen. lia.
Defined.

(** ** Thresholds out of reach and thresholds already reached *)

Lemma specScan_no_split (base threshold : Z) (usersets : list ObjectAndRelation) :
  0 <= base ->
  partitionSize base usersets <= int_max ->
  partitionSize base usersets < threshold ->
  specScan base threshold usersets =
  {| closedPartitions := []; currentPartition := usersets;
     runningSize := partitionSize base usersets |}.
Proof.
  intros Hbase.
  induction usersets as [|userset before IH] using rev_ind; intros Hfit Hunder.
  - unfold specScan. simpl. now rewrite partitionSize_nil.
  - rewrite partitionSize_snoc in Hfit, Hunder.
    pose proof (usersetLength_nonneg userset) as Hpos.
    pose proof (partitionSize_ge base before) as Hge.
    rewrite specScan_snoc, IH by lia.
    assert (Hsize : usersetSize userset = usersetLength userset).
    { rewrite usersetSize_wrap. apply wrap_int_id.
      unfold is_int, int_min, int_max in *. lia. }
    unfold specScanStep. simpl. rewrite Hsize.
    assert (Hsum : int_add (usersetLength userset) (partitionSize base before)
                   = partitionSize base before + usersetLength userset).
    { unfold int_add. rewrite wrap_int_id; [lia |].
      unfold is_int, int_min, int_max in *. lia. }
    rewrite Hsum.
    replace (threshold <=? partitionSize base before + usersetLength userset) with false
      by (symmetry; apply Z.leb_gt; lia).
    rewrite andb_false_r. f_equal.
    rewrite partitionSize_snoc. unfold int_add. apply wrap_int_id.
    unfold is_int, int_min, int_max in *. lia.
Qed.

(** X2. When the base size and all the usersets together stay under the
    threshold, nothing is split: the one query filters on the whole list. *)
Theorem no_split_under_threshold (ctq : TupleQuerySplitter) :
  let base := TupleQuerySplitter.FilteredQueryBuilder ctq in
  let usersets := TupleQuerySplitter.Usersets ctq in
  usersets <> [] ->
  0 <= currentEstimatedSize base ->
  partitionSize (currentEstimatedSize base) usersets <= int_max ->
  partitionSize (currentEstimatedSize base) usersets < TupleQuerySplitter.SplitAtEstimatedQuerySize ctq ->
  splitPartitions ctq = Returns [usersets] /\
  exists query,
    FilterToUsersets base usersets = Returns query /\
    splitQueries ctq = Returns [query].
Proof.
  intros base usersets. subst base usersets. intros Hne Hbase Hfit Hunder.
  assert (Hparts : specPartitions
                     (currentEstimatedSize (TupleQuerySplitter.FilteredQueryBuilder ctq))
                     (TupleQuerySplitter.SplitAtEstimatedQuerySize ctq)
                     (TupleQuerySplitter.Usersets ctq) = [TupleQuerySplitter.Usersets ctq]).
  { unfold specPartitions. now rewrite specScan_no_split. }
  split; [now rewrite splitPartitions_spec, Hparts |].
  destruct (splitQueries_partitions ctq Hne) as (queries & Hq & Hall).
  rewrite Hparts in Hall.
  inversion Hall as [|? query ? rest Hquery Hrest]; subst.
  inversion Hrest; subst.
  exists query. split; [exact Hquery | exact Hq].
Qed.

Lemma specPartitions_all_single (base threshold : Z) (usersets : list ObjectAndRelation) :
  0 <= base ->
  partitionSize base usersets <= int_max ->
  threshold <= base ->
  usersets <> [] ->
  specPartitions base threshold usersets = map (fun userset => [userset]) usersets.
Proof.
  intros Hbase Hfit Hreached.
  induction usersets as [|userset before IH] using rev_ind; intros Hne; [congruence |].
  rewrite partitionSize_snoc in Hfit.
  pose proof (usersetLength_nonneg userset) as Hpos.
  pose proof (partitionSize_ge base before) as Hge.
  unfold specPartitions in *. rewrite specScan_snoc, map_app. simpl.
  destruct before as [|first before'].
  - reflexivity.
  - specialize (IH ltac:(lia) ltac:(discriminate)).
    destruct (specScan_sizes base threshold (first :: before') Hbase ltac:(lia)) as (Hrunning & _ & _).
    destruct (scans_agree base threshold (first :: before')) as [_ _ _ _ _ Hcur].
    specialize (Hcur ltac:(discriminate)).
    pose proof (partitionSize_ge base (currentPartition (specScan base threshold (first :: before')))) as Hcurrent.
    assert (Hsize : usersetSize userset = usersetLength userset).
    { rewrite usersetSize_wrap. apply wrap_int_id.
      unfold is_int, int_min, int_max in *. lia. }
    assert (Hbound : partitionSize base (currentPartition (specScan base threshold (first :: before')))
                     <= partitionSize base (first :: before')).
    { destruct (scans_agree base threshold (first :: before')) as [_ _ _ Hcat _ _].
      rewrite <- Hcat at 2. rewrite partitionSize_app.
      pose proof (partitionSize_ge 0 (currentPartition (specScan base threshold (first :: before')))).
      pose proof (partitionSize_ge base (concat (closedPartitions (specScan base threshold (first :: before'))))).
      unfold partitionSize in *. lia. }
    unfold specScanStep. rewrite Hsize, Hrunning.
    rewrite bool_decide_eq_true_2 by exact Hcur.
    replace (threshold <=? int_add (usersetLength userset)
               (partitionSize base (currentPartition (specScan base threshold (first :: before')))))
      with true.
    + simpl. now rewrite IH.
    + symmetry. apply Z.leb_le. unfold int_add. rewrite wrap_int_id; [lia |].
      unfold is_int, int_min, int_max in *. lia.
Qed.

(** X3. When the base size alone already reaches the threshold (a threshold of
    zero, say), every userset gets a query of its own. *)
Theorem one_query_per_userset (ctq : TupleQuerySplitter) :
  let base := TupleQuerySplitter.FilteredQueryBuilder ctq in
  let usersets := TupleQuerySplitter.Usersets ctq in
  usersets <> [] ->
  0 <= currentEstimatedSize base ->
  partitionSize (currentEstimatedSize base) usersets <= int_max ->
  TupleQuerySplitter.SplitAtEstimatedQuerySize ctq <= currentEstimatedSize base ->
  splitPartitions ctq = Returns (map (fun userset => [userset]) usersets) /\
  exists queries,
    splitQueries ctq = Returns queries /\
    Forall2 (fun userset query => FilterToUsersets base [userset] = Returns query) usersets queries.
Proof.
  intros base usersets. subst base usersets. intros Hne Hbase Hfit Hreached.
  pose proof (specPartitions_all_single _ _ _ Hbase Hfit Hreached Hne) as Hparts.
  split; [now rewrite splitPartitions_spec, Hparts |].
  destruct (splitQueries_partitions ctq Hne) as (queries & Hq & Hall).
  rewrite Hparts in Hall.
  exists queries. split; [exact Hq |].
  now apply Forall2_fmap_l in Hall.
Qed.

Lemma no_split_under_threshold_witness :
  splitPartitions defaultSplitter = Returns [[usersetA; usersetB; usersetC]].
Proof.
  destruct (no_split_under_threshold defaultSplitter) as [Hparts _].
  - discriminate.
  - vm_compute. discriminate.
  - vm_compute. discriminate.
  - vm_compute. reflexivity.
  - exact Hparts.
Defined.

Lemma one_query_per_userset_witness :
  splitPartitions zeroThresholdSplitter = Returns [[usersetA]; [usersetB]; [usersetC]].
Proof.
  destruct (one_query_per_userset zeroThresholdSplitter) as [Hparts _].
  - discriminate.
  - vm_compute. discriminate.
  - vm_compute. discriminate.
  - vm_compute. discriminate.
  - exact Hparts.
Defined.

(** ** Partitions are filled as far as the threshold allows *)

Lemma specScan_filled (base threshold : Z) (usersets : list ObjectAndRelation) :
  0 <= base ->
  partitionSize base usersets <= int_max ->
  forall (i : nat) part userset rest,
    specPartitions base threshold usersets !! i = Some part ->
    specPartitions base threshold usersets !! S i = Some (userset :: rest) ->
    threshold <= partitionSize base part + usersetLength userset.
Proof.
  intros Hbase. unfold specPartitions.
  induction usersets as [|next before IH] using rev_ind; intros Hfit i part userset rest Hpart Hnext.
  - unfold specScan in Hnext. simpl in Hnext. destruct i; discriminate.
  - rewrite partitionSize_snoc in Hfit.
    pose proof (usersetLength_nonneg next) as Hpos.
    pose proof (partitionSize_ge base before) as Hge.
    specialize (IH ltac:(lia)).
    destruct (specScan_sizes base threshold before Hbase ltac:(lia)) as (Hrunning & _ & _).
    destruct (scans_agree base threshold before) as [_ _ _ Hcat _ Hcur].
    set (st := specScan base threshold before) in *.
    assert (Hbound : partitionSize base (currentPartition st) <= partitionSize base before).
    { pose proof (f_equal (partitionSize base) Hcat) as Hwhole.
      rewrite partitionSize_app in Hwhole.
      pose proof (partitionSize_ge 0 (currentPartition st)).
      pose proof (partitionSize_ge base (concat (closedPartitions st))).
      unfold partitionSize in *. lia. }
    pose proof (partitionSize_ge base (currentPartition st)) as Hcurrent.
    assert (Hsize : usersetSize next = usersetLength next).
    { rewrite usersetSize_wrap. apply wrap_int_id.
      unfold is_int, int_min, int_max in *. lia. }
    assert (Hsum : int_add (usersetLength next) (partitionSize base (currentPartition st))
                   = partitionSize base (currentPartition st) + usersetLength next).
    { unfold int_add. rewrite wrap_int_id; [lia |].
      unfold is_int, int_min, int_max in *. lia. }
    rewrite specScan_snoc in Hpart, Hnext. fold st in Hpart, Hnext.
    unfold specScanStep in Hpart, Hnext. rewrite Hsize, Hrunning, Hsum in Hpart, Hnext.
    destruct (bool_decide (currentPartition st <> [])
              && (threshold <=? partitionSize base (currentPartition st) + usersetLength next))
      eqn:Hsplit; simpl in Hpart, Hnext.
    + apply andb_prop in Hsplit as [_ Hreach]. apply Z.leb_le in Hreach.
      destruct (decide (S i < List.length (closedPartitions st ++ [currentPartition st]))%nat)
        as [Hin | Hout].
      * rewrite lookup_app_l in Hpart by lia. rewrite lookup_app_l in Hnext by exact Hin.
        exact (IH i part userset rest Hpart Hnext).
      * rewrite length_app in Hout. simpl in Hout.
        destruct (decide (i = List.length (closedPartitions st))) as [-> | Hother].
        -- rewrite lookup_app_l in Hpart by (rewrite length_app; simpl; lia).
           rewrite list_lookup_middle in Hpart by reflexivity.
           rewrite lookup_app_r in Hnext by (rewrite length_app; simpl; lia).
           rewrite length_app in Hnext. simpl in Hnext.
           replace (S (List.length (closedPartitions st)) - (List.length (closedPartitions st) + 1))%nat
             with 0%nat in Hnext by lia.
           simpl in Hnext. injection Hpart as <-. injection Hnext as <- <-. lia.
        -- apply lookup_lt_Some in Hnext. rewrite !length_app in Hnext. simpl in Hnext. lia.
    + destruct (decide (S i < List.length (closedPartitions st))%nat) as [Hin | Hout].
      * rewrite lookup_app_l in Hpart by lia. rewrite lookup_app_l in Hnext by exact Hin.
        apply (IH i part userset rest).
        -- now rewrite lookup_app_l by lia.
        -- now rewrite lookup_app_l by exact Hin.
      * destruct (decide (S i = List.length (closedPartitions st))) as [Hlast | Hbeyond].
        -- rewrite lookup_app_l in Hpart by lia.
           rewrite list_lookup_middle in Hnext by exact Hlast.
           destruct (currentPartition st) as [|first others] eqn:Hcp.
           ++ exfalso. destruct before as [|b before'].
              ** unfold st, specScan in Hlast. simpl in Hlast. discriminate.
              ** apply Hcur; [discriminate | reflexivity].
           ++ simpl in Hnext. injection Hnext as <- <-.
              apply (IH i part first others).
              ** now rewrite lookup_app_l by lia.
              ** rewrite list_lookup_middle by exact Hlast. reflexivity.
        -- apply lookup_lt_Some in Hnext. rewrite length_app in Hnext. simpl in Hnext. lia.
Qed.

(** X4. A split is made only when it has to be: the first userset of a
    partition would have brought the partition before it to the threshold. *)
Theorem partitions_filled_to_threshold (ctq : TupleQuerySplitter) :
  let base := currentEstimatedSize (TupleQuerySplitter.FilteredQueryBuilder ctq) in
  let threshold := TupleQuerySplitter.SplitAtEstimatedQuerySize ctq in
  0 <= base ->
  partitionSize base (TupleQuerySplitter.Usersets ctq) <= int_max ->
  exists parts,
    splitPartitions ctq = Returns parts /\
    forall (i : nat) part userset rest,
      parts !! i = Some part ->
      parts !! S i = Some (userset :: rest) ->
      threshold <= partitionSize base part + usersetLength userset.
Proof.
  intros base threshold Hbase Hfit.
  eexists. split; [apply splitPartitions_spec |].
  now apply specScan_filled.
Qed.

Lemma partitions_filled_to_threshold_witness :
  20 <= partitionSize 0 [usersetA; usersetB] + usersetLength usersetC.
Proof.
  destruct (partitions_filled_to_threshold scenarioSplitter) as (parts & Hparts & Hfilled).
  - vm_compute. discriminate.
  - vm_compute. discriminate.
  - injection Hparts as <-.
    apply (Hfilled 0%nat [usersetA; usersetB] usersetC []); reflexivity.
Defined.

(** * Further properties of the execution *)

Lemma splitQueries_returns (ctq : TupleQuerySplitter) :
  exists queries, splitQueries ctq = Returns queries.
Proof.
  destruct (TupleQuerySplitter.Usersets ctq) as [|userset usersets] eqn:Husersets.
  - exists [TupleQuerySplitter.FilteredQueryBuilder ctq].
    unfold splitQueries. rewrite Husersets. reflexivity.
  - destruct (splitQueries_partitions ctq) as (queries & Hq & _).
    + rewrite Husersets. discriminate.
    + now exists queries.
Qed.

Section ExecutionEdges.

Variable ToSql : SelectBuilder -> error + Sql.

Lemma single_query_result (ctq : TupleQuerySplitter) :
  TupleQuerySplitter.Usersets ctq = [] ->
  let base := TupleQuerySplitter.FilteredQueryBuilder ctq in
  splitQueries ctq = Returns [base] /\
  (TupleQuerySplitter.Limit ctq = None ->
   SplitAndExecute ToSql ctq
   = Returns (singleResult (executeSingleQuery ToSql ctq base 0 0))) /\
  (forall limit,
     TupleQuerySplitter.Limit ctq = Some limit -> is_uint64 limit -> 0 < limit ->
     SplitAndExecute ToSql ctq
     = Returns (singleResult (executeSingleQuery ToSql ctq (Limit base limit) 0 limit))).
Proof.
  intros Husersets base.
  assert (Hq : splitQueries ctq = Returns [base]).
  { unfold splitQueries. rewrite Husersets. reflexivity. }
  split; [exact Hq |]. split.
  - intros Hlimit. unfold SplitAndExecute. rewrite Hq. cbn.
    unfold executeIteration. rewrite Hlimit.
    destruct (executeSingleQuery ToSql ctq base 0 0) as [found [err |]]; reflexivity.
  - intros limit Hlimit Hrange Hpos. unfold SplitAndExecute. rewrite Hq. cbn.
    unfold executeIteration. rewrite Hlimit.
    rewrite remaining_exact by (unfold len; simpl; unfold is_uint64 in *; lia).
    replace (limit - len []) with limit by (unfold len; simpl; lia).
    replace (limit <=? 0) with false by (symmetry; apply Z.leb_gt; lia).
    destruct (executeSingleQuery ToSql ctq (Limit base limit) 0 limit) as [found [err |]];
      reflexivity.
Qed.

(** X6. With no userset there is one query, the builder as it was given, and
    the call returns what that query returns: all of it without a limit, and
    under the limit as its cap otherwise. *)
Theorem no_usersets_single_query (ctq : TupleQuerySplitter) :
  TupleQuerySplitter.Usersets ctq = [] ->
  let base := TupleQuerySplitter.FilteredQueryBuilder ctq in
  splitQueries ctq = Returns [base] /\
  (TupleQuerySplitter.Limit ctq = None ->
   SplitAndExecute ToSql ctq
   = Returns (singleResult (executeSingleQuery ToSql ctq base 0 0))) /\
  (forall limit,
     TupleQuerySplitter.Limit ctq = Some limit -> is_uint64 limit -> 0 < limit ->
     SplitAndExecute ToSql ctq
     = Returns (singleResult (executeSingleQuery ToSql ctq (Limit base limit) 0 limit))).
Proof. exact (single_query_result ctq). Qed.

(** X7. A limit of zero returns no tuple and no error without asking the
    database anything, whatever the usersets and whatever state the database
    is in. *)
Theorem zero_limit_returns_nothing (ctq : TupleQuerySplitter) :
  TupleQuerySplitter.Limit ctq = Some 0 ->
  SplitAndExecute ToSql ctq = Returns (Some (NewSliceTupleIterator []), None).
Proof.
  intros Hlimit. unfold SplitAndExecute.
  destruct (splitQueries_returns ctq) as (queries & ->). cbn.
  destruct queries as [|query queries]; [reflexivity |].
  simpl. unfold executeIteration. rewrite Hlimit. reflexivity.
Qed.

(** The cursor loop returns rows of the cursor, from the first on and in
    order; without a cap it returns them all. *)
Lemma readRows_prefix (limit : Z) (rowsErr : option error) (rows : list rowResult) :
  forall tuples found,
    readRows limit rows rowsErr tuples = (found, None) ->
    exists taken,
      found = tuples ++ taken /\
      map ScanSucceeds taken `prefix_of` rows /\
      (limit <= 0 -> map ScanSucceeds taken = rows /\ rowsErr = None).
Proof.
  induction rows as [|row rows IH]; intros tuples found Hread; simpl in Hread.
  - destruct rowsErr; [discriminate |]. injection Hread as <-.
    exists []. rewrite app_nil_r. repeat split. apply prefix_nil.
  - destruct ((0 <? limit) && (int_of_uint64 limit <=? len tuples)) eqn:Hcap.
    + injection Hread as <-. exists []. rewrite app_nil_r.
      split; [reflexivity |]. split; [apply prefix_nil |].
      intros Hno. apply andb_prop in Hcap as [Hpos _]. apply Z.ltb_lt in Hpos. lia.
    + destruct row as [nextTuple | err]; [| discriminate].
      destruct (IH _ _ Hread) as (taken & -> & Hprefix & Hall).
      exists (nextTuple :: taken). rewrite <- app_assoc.
      split; [reflexivity |]. split; [now apply prefix_cons |].
      intros Hno. destruct (Hall Hno) as [Heq Herr]. simpl. rewrite Heq.
      split; [reflexivity | exact Herr].
Qed.

(** X8. What [executeSingleQuery] returns without error are rows the database
    sent for that statement, from the first on, in order, none skipped; and
    with no cap, all of them. *)
Theorem executeSingleQuery_returns_leading_rows (ctq : TupleQuerySplitter)
  (query : SchemaQueryFilterer) (index : nat) (limit : Z) (found : list RelationTuple) :
  executeSingleQuery ToSql ctq query index limit = (found, None) ->
  exists sql rows,
    ToSql (queryBuilder query) = inr sql /\
    Query (TupleQuerySplitter.Conn ctq) index sql = inr rows /\
    map ScanSucceeds found `prefix_of` rowResults rows /\
    (limit <= 0 -> map ScanSucceeds found = rowResults rows /\ rowsErr rows = None).
Proof.
  unfold executeSingleQuery. fold (prepared ctq index).
  destruct (ToSql (queryBuilder query)) as [c | sql]; [discriminate |].
  destruct (BeginTx (TupleQuerySplitter.Conn ctq) index) as [c |]; [discriminate |].
  destruct (prepared ctq index) as [c |]; [discriminate |].
  destruct (Query (TupleQuerySplitter.Conn ctq) index sql) as [c | rows] eqn:Hquery;
    [discriminate |].
  intros Hread. destruct (readRows_prefix _ _ _ _ _ Hread) as (taken & -> & Hprefix & Hall).
  exists sql, rows.
  split; [reflexivity |]. split; [exact Hquery |]. split; [exact Hprefix | exact Hall].
Qed.

(** X9. A cap of 2^63 or more reads nothing: as soon as the cursor has a row,
    the call returns no tuple and no error, whatever the rows are. *)
Theorem cap_beyond_int_reads_nothing (ctq : TupleQuerySplitter) (query : SchemaQueryFilterer)
  (index : nat) (limit : Z) (sql : Sql) (rows : Rows) :
  2 ^ 63 <= limit <= uint64_max ->
  ToSql (queryBuilder query) = inr sql ->
  BeginTx (TupleQuerySplitter.Conn ctq) index = None ->
  prepared ctq index = None ->
  Query (TupleQuerySplitter.Conn ctq) index sql = inr rows ->
  rowResults rows <> [] ->
  executeSingleQuery ToSql ctq query index limit = ([], None).
Proof.
  intros Hrange Hsql Hbegin Hprep Hquery Hrows.
  unfold executeSingleQuery. fold (prepared ctq index).
  rewrite Hsql, Hbegin, Hprep, Hquery.
  destruct (rowResults rows) as [|row rest]; [congruence |]. simpl.
  assert (Hneg : int_of_uint64 limit < 0).
  { unfold int_of_uint64, wrap_int, uint64_max in *.
    replace (limit + 2 ^ 63) with (limit - 2 ^ 63 + 1 * 2 ^ 64) by lia.
    rewrite Z_mod_plus_full, Z.mod_small by lia. lia. }
  replace (0 <? limit) with true by (symmetry; apply Z.ltb_lt; lia).
  replace (int_of_uint64 limit <=? len (@nil RelationTuple)) with true
    by (symmetry; apply Z.leb_le; unfold len; simpl; lia).
  reflexivity.
Qed.

Lemma readRows_all (rows : list RelationTuple) :
  forall tuples,
    readRows 0 (map ScanSucceeds rows) None tuples = (tuples ++ rows, None).
Proof.
  induction rows as [|row rows IH]; intros tuples; simpl.
  - now rewrite app_nil_r.
  - rewrite IH, <- app_assoc. reflexivity.
Qed.

Lemma executeQueries_all (ctq : TupleQuerySplitter) (queries : list SchemaQueryFilterer)
  (matching : nat -> list RelationTuple) :
  TupleQuerySplitter.Limit ctq = None ->
  answersAll ToSql ctq queries matching ->
  forall remaining index tuples,
    drop index queries = remaining ->
    executeQueries ToSql ctq index remaining tuples
    = inr (tuples ++ matchingFrom matching index (List.length remaining)).
Proof.
  intros Hlimit Hanswers.
  induction remaining as [|query remaining IH]; intros index tuples Hdrop; simpl.
  - now rewrite app_nil_r.
  - assert (Hquery : queries !! index = Some query).
    { rewrite <- (Nat.add_0_r index), <- lookup_drop, Hdrop. reflexivity. }
    assert (Hnext : drop (S index) queries = remaining).
    { replace (S index) with (index + 1)%nat by lia.
      rewrite <- (drop_drop queries 1 index), Hdrop. reflexivity. }
    destruct (Hanswers index query Hquery) as (sql & Hsql & Hbegin & Hprep & Hrows).
    unfold executeIteration. rewrite Hlimit.
    unfold executeSingleQuery. fold (prepared ctq index).
    rewrite Hsql, Hbegin, Hprep, Hrows. simpl.
    rewrite readRows_all. simpl.
    rewrite (IH (S index) _ Hnext), <- app_assoc. reflexivity.
Qed.

(** X10. Without a limit and without failure the call returns every row of every
    partition: the rows of the first partition in the order the database sent
    them, then those of the second, and so on. *)
Theorem unlimited_returns_all_rows_in_order (ctq : TupleQuerySplitter)
  (queries : list SchemaQueryFilterer) (matching : nat -> list RelationTuple) :
  TupleQuerySplitter.Limit ctq = None ->
  splitQueries ctq = Returns queries ->
  answersAll ToSql ctq queries matching ->
  SplitAndExecute ToSql ctq
  = Returns (Some (NewSliceTupleIterator (matchingFrom matching 0 (List.length queries))), None).
Proof.
  intros Hlimit Hqueries Hanswers.
  unfold SplitAndExecute. rewrite Hqueries. cbn.
  now rewrite (executeQueries_all ctq queries matching Hlimit Hanswers queries 0%nat []).
Qed.

End ExecutionEdges.

Lemma no_usersets_single_query_witness :
  SplitAndExecute plainToSql reverseSplitter
  = Returns (Some (NewSliceTupleIterator (take 3 tenRows)), None).
Proof.
  destruct (no_usersets_single_query plainToSql reverseSplitter eq_refl) as (_ & _ & Hlimited).
  rewrite (Hlimited 3 eq_refl); [reflexivity | split; discriminate | reflexivity].
Defined.

Lemma zero_limit_returns_nothing_witness :
  SplitAndExecute plainToSql zeroLimitSplitter = Returns (Some (NewSliceTupleIterator []), None).
Proof. apply zero_limit_returns_nothing. reflexivity. Defined.

Lemma executeSingleQuery_returns_leading_rows_witness :
  exists sql rows,
    plainToSql (queryBuilder emptyFilterer) = inr sql /\
    Query tenRowsPool 0 sql = inr rows /\
    map ScanSucceeds (take 3 tenRows) `prefix_of` rowResults rows.
Proof.
  destruct (executeSingleQuery_returns_leading_rows plainToSql limitedSplitter emptyFilterer
              0 3 (take 3 tenRows) eq_refl) as (sql & rows & Hsql & Hquery & Hprefix & _).
  exists sql, rows. split; [exact Hsql |]. split; [exact Hquery | exact Hprefix].
Defined.

Lemma cap_beyond_int_reads_nothing_witness :
  executeSingleQuery plainToSql hugeLimitSplitter folderFilterer 0 (2 ^ 63) = ([], None).
Proof.
  eapply cap_beyond_int_reads_nothing.
  - split; vm_compute; discriminate.
  - reflexivity.
  - reflexivity.
  - reflexivity.
  - reflexivity.
  - discriminate.
Defined.

Lemma unlimited_returns_all_rows_in_order_witness :
  SplitAndExecute plainToSql numberedSplitter
  = Returns (Some (NewSliceTupleIterator
                     [viewerOf "0"; viewerOf "0"; viewerOf "1"; viewerOf "1";
                      viewerOf "2"; viewerOf "2"]), None).
Proof.
  apply (unlimited_returns_all_rows_in_order plainToSql numberedSplitter
           (match splitQueries numberedSplitter with Returns queries => queries | Panics _ => [] end)
           numberedRows).
  - reflexivity.
  - reflexivity.
  - intros index query _. exists (From (queryBuilder query), []).
    repeat split. destruct index as [|[|index]]; reflexivity.
Defined.

(** * Further properties of the filter builder *)

Lemma swap_last_two {A : Type} (l a b : list A) : (l ++ a) ++ b ≡ₚ (l ++ b) ++ a.
Proof.
  rewrite <- !app_assoc. apply Permutation_app_head, Permutation_app_comm.
Qed.

Lemma int_add_swap (n a b : Z) : int_add (int_add n a) b = int_add (int_add n b) a.
Proof. unfold int_add. rewrite !wrap_int_add_l. f_equal. lia. Qed.

Lemma FilterToSubjectFilter_frame (sqf : SchemaQueryFilterer) (filter : SubjectFilter) :
  schema (FilterToSubjectFilter sqf filter) = schema sqf /\
  Columns (queryBuilder (FilterToSubjectFilter sqf filter)) = Columns (queryBuilder sqf) /\
  From (queryBuilder (FilterToSubjectFilter sqf filter)) = From (queryBuilder sqf) /\
  LimitPart (queryBuilder (FilterToSubjectFilter sqf filter)) = LimitPart (queryBuilder sqf).
Proof.
  unfold FilterToSubjectFilter. destruct filter as [ty id rel]. simpl.
  destruct (decide (id = "")); destruct rel as [[r]|]; simpl; repeat split.
Qed.

(** The subject filter commutes with a filter that appends one predicate,
    one attribute and one operand length and keeps the rest. *)
Lemma FilterToSubjectFilter_commutes (sqf after : SchemaQueryFilterer) (filter : SubjectFilter)
  (pred : Sqlizer) (attr : KeyValue) (n : Z) :
  schema after = schema sqf ->
  Columns (queryBuilder after) = Columns (queryBuilder sqf) ->
  From (queryBuilder after) = From (queryBuilder sqf) ->
  LimitPart (queryBuilder after) = LimitPart (queryBuilder sqf) ->
  WhereParts (queryBuilder after) = WhereParts (queryBuilder sqf) ++ [pred] ->
  tracerAttributes after = tracerAttributes sqf ++ [attr] ->
  currentEstimatedSize after = int_add (currentEstimatedSize sqf) n ->
  forall (again : SchemaQueryFilterer),
    schema again = schema (FilterToSubjectFilter sqf filter) ->
    Columns (queryBuilder again) = Columns (queryBuilder (FilterToSubjectFilter sqf filter)) ->
    From (queryBuilder again) = From (queryBuilder (FilterToSubjectFilter sqf filter)) ->
    LimitPart (queryBuilder again) = LimitPart (queryBuilder (FilterToSubjectFilter sqf filter)) ->
    WhereParts (queryBuilder again)
      = WhereParts (queryBuilder (FilterToSubjectFilter sqf filter)) ++ [pred] ->
    tracerAttributes again = tracerAttributes (FilterToSubjectFilter sqf filter) ++ [attr] ->
    currentEstimatedSize again
      = int_add (currentEstimatedSize (FilterToSubjectFilter sqf filter)) n ->
    sameFilters (FilterToSubjectFilter after filter) again.
Proof.
  intros Hschema Hcolumns Hfrom Hlimit Hwhere Hattrs Hsize
         again Hschema' Hcolumns' Hfrom' Hlimit' Hwhere' Hattrs' Hsize'.
  destruct (FilterToSubjectFilter_frame after filter) as (Fs & Fc & Ff & Fl).
  destruct (FilterToSubjectFilter_frame sqf filter) as (Gs & Gc & Gf & Gl).
  destruct (FilterToSubjectFilter_fields after filter) as (Fw & Fa & Fz).
  destruct (FilterToSubjectFilter_fields sqf filter) as (Gw & Ga & Gz).
  cbv zeta in Fw, Fa, Fz, Gw, Ga, Gz.
  unfold sameFilters.
  rewrite Fs, Fc, Ff, Fl, Hschema', Hcolumns', Hfrom', Hlimit', Gs, Gc, Gf, Gl.
  rewrite Hwhere', Hattrs', Hsize', Fw, Fa, Fz, Gw, Ga, Gz.
  rewrite Hschema, Hcolumns, Hfrom, Hlimit, Hwhere, Hattrs, Hsize.
  repeat split.
  - apply swap_last_two.
  - unfold int_add. rewrite wrap_int_add_l, wrap_int_add_l. f_equal. lia.
  - apply swap_last_two.
Qed.

(** X13. The filters commute: applied in either order, two resource filters, or
    a resource filter and the subject filter, give builders with the same
    predicates and attributes up to order, the same estimated size and the
    same rest of the statement. *)
Theorem filters_commute (sqf : SchemaQueryFilterer) (x y : string) (filter : SubjectFilter) :
  sameFilters (FilterToRelation (FilterToResourceType sqf x) y)
              (FilterToResourceType (FilterToRelation sqf y) x) /\
  sameFilters (FilterToResourceID (FilterToResourceType sqf x) y)
              (FilterToResourceType (FilterToResourceID sqf y) x) /\
  sameFilters (FilterToRelation (FilterToResourceID sqf x) y)
              (FilterToResourceID (FilterToRelation sqf y) x) /\
  sameFilters (FilterToSubjectFilter (FilterToResourceType sqf x) filter)
              (FilterToResourceType (FilterToSubjectFilter sqf filter) x) /\
  sameFilters (FilterToSubjectFilter (FilterToResourceID sqf x) filter)
              (FilterToResourceID (FilterToSubjectFilter sqf filter) x) /\
  sameFilters (FilterToSubjectFilter (FilterToRelation sqf x) filter)
              (FilterToRelation (FilterToSubjectFilter sqf filter) x).
Proof.
  assert (Hresource : forall a b : SchemaQueryFilterer,
            schema a = schema b ->
            Columns (queryBuilder a) = Columns (queryBuilder b) ->
            From (queryBuilder a) = From (queryBuilder b) ->
            LimitPart (queryBuilder a) = LimitPart (queryBuilder b) ->
            WhereParts (queryBuilder a) ≡ₚ WhereParts (queryBuilder b) ->
            currentEstimatedSize a = currentEstimatedSize b ->
            tracerAttributes a ≡ₚ tracerAttributes b ->
            sameFilters a b) by (intros; repeat split; assumption).
  destruct (FilterToSubjectFilter_frame sqf filter) as (Gs & _).
  split; [| split; [| split; [| split; [| split]]]].
  - apply Hresource; simpl; try reflexivity;
      [apply swap_last_two | apply int_add_swap | apply swap_last_two].
  - apply Hresource; simpl; try reflexivity;
      [apply swap_last_two | apply int_add_swap | apply swap_last_two].
  - apply Hresource; simpl; try reflexivity;
      [apply swap_last_two | apply int_add_swap | apply swap_last_two].
  - eapply FilterToSubjectFilter_commutes; simpl; try reflexivity; now rewrite Gs.
  - eapply FilterToSubjectFilter_commutes; simpl; try reflexivity; now rewrite Gs.
  - eapply FilterToSubjectFilter_commutes; simpl; try reflexivity; now rewrite Gs.
Qed.

(** * Properties of the Postgres queries *)

Lemma len_string_empty (s : string) : s = "" -> len_string s = 0.
Proof. now intros ->. Qed.

Section PostgresProperties.

Variables colNamespace colObjectID colRelation : string.
Variables colUsersetNamespace colUsersetObjectID colUsersetRelation : string.
Variable tableTuple : string.
Variable filterToLivingObjects : SelectBuilder -> Revision -> SelectBuilder.
Variable ToSql : SelectBuilder -> error + Sql.

Let schema0 : SchemaInformation :=
  pgSchema colNamespace colObjectID colRelation
           colUsersetNamespace colUsersetObjectID colUsersetRelation.

Let living (revision : Revision) : SelectBuilder :=
  filterToLivingObjects
    (queryTuples colNamespace colObjectID colRelation
                 colUsersetNamespace colUsersetObjectID colUsersetRelation tableTuple)
    revision.

Let builderOf (filter : RelationshipFilter.t) (revision : Revision) : SchemaQueryFilterer :=
  queryTuplesBuilder colNamespace colObjectID colRelation
    colUsersetNamespace colUsersetObjectID colUsersetRelation tableTuple
    filterToLivingObjects filter revision.

(** X14. The builder of [QueryTuples]: the living rows of the tuple table that
    match the relationship filter, an empty resource id or relation standing
    for none; its estimated size is the byte length of the filter's operands,
    which is not negative; no limit is set other than the one the filter on
    living rows may set. *)
Theorem queryTuplesBuilder_filters (filter : RelationshipFilter.t) (revision : Revision) :
  schema (builderOf filter revision) = schema0 /\
  Columns (queryBuilder (builderOf filter revision)) = Columns (living revision) /\
  From (queryBuilder (builderOf filter revision)) = From (living revision) /\
  LimitPart (queryBuilder (builderOf filter revision)) = LimitPart (living revision) /\
  WhereParts (queryBuilder (builderOf filter revision))
    = WhereParts (living revision) ++ relationshipFilterPredicates schema0 filter /\
  currentEstimatedSize (builderOf filter revision) = wrap_int (relationshipFilterLength filter) /\
  (is_int (relationshipFilterLength filter) ->
   currentEstimatedSize (builderOf filter revision) = relationshipFilterLength filter /\
   0 <= currentEstimatedSize (builderOf filter revision)).
Proof.
  assert (Hmain :
    schema (builderOf filter revision) = schema0 /\
    Columns (queryBuilder (builderOf filter revision)) = Columns (living revision) /\
    From (queryBuilder (builderOf filter revision)) = From (living revision) /\
    LimitPart (queryBuilder (builderOf filter revision)) = LimitPart (living revision) /\
    WhereParts (queryBuilder (builderOf filter revision))
      = WhereParts (living revision) ++ relationshipFilterPredicates schema0 filter /\
    currentEstimatedSize (builderOf filter revision) = wrap_int (relationshipFilterLength filter)).
  { unfold builderOf, queryTuplesBuilder, relationshipFilterPredicates, relationshipFilterLength.
    fold schema0. fold (living revision).
    destruct filter as [ty id rel subject]. simpl.
    set (b0 := FilterToResourceType (NewSchemaQueryFilterer schema0 (living revision)) ty).
    set (b1 := if decide (id = "") then b0 else FilterToResourceID b0 id).
    set (b2 := if decide (rel = "") then b1 else FilterToRelation b1 rel).
    assert (H1 : schema b1 = schema0 /\
                 Columns (queryBuilder b1) = Columns (living revision) /\
                 From (queryBuilder b1) = From (living revision) /\
                 LimitPart (queryBuilder b1) = LimitPart (living revision) /\
                 WhereParts (queryBuilder b1)
                   = WhereParts (living revision) ++ [Eq {[ ColNamespace schema0 := ty ]}]
                     ++ (if decide (id = "") then [] else [Eq {[ ColObjectID schema0 := id ]}]) /\
                 currentEstimatedSize b1 = wrap_int (len_string ty + len_string id)).
    { unfold b1. destruct (decide (id = "")) as [Hid | Hid]; simpl.
      - rewrite ?app_nil_r, (len_string_empty id Hid). repeat split.
        unfold int_add. f_equal. lia.
      - rewrite <- app_assoc. repeat split.
        unfold int_add. now rewrite wrap_int_add_l. }
    destruct H1 as (S1 & C1 & F1 & L1 & W1 & Z1).
    assert (H2 : schema b2 = schema0 /\
                 Columns (queryBuilder b2) = Columns (living revision) /\
                 From (queryBuilder b2) = From (living revision) /\
                 LimitPart (queryBuilder b2) = LimitPart (living revision) /\
                 WhereParts (queryBuilder b2)
                   = WhereParts (living revision) ++ [Eq {[ ColNamespace schema0 := ty ]}]
                     ++ (if decide (id = "") then [] else [Eq {[ ColObjectID schema0 := id ]}])
                     ++ (if decide (rel = "") then [] else [Eq {[ ColRelation schema0 := rel ]}]) /\
                 currentEstimatedSize b2 = wrap_int (len_string ty + len_string id + len_string rel)).
    { unfold b2. destruct (decide (rel = "")) as [Hrel | Hrel]; simpl.
      - rewrite ?app_nil_r, (len_string_empty rel Hrel), Z.add_0_r. repeat split; assumption.
      - rewrite S1, C1, F1, L1, W1, Z1, <- !app_assoc. repeat split.
        unfold int_add. now rewrite wrap_int_add_l. }
    destruct H2 as (S2 & C2 & F2 & L2 & W2 & Z2).
    destruct subject as [subjectFilter |].
    - destruct (FilterToSubjectFilter_frame b2 subjectFilter) as (Fs & Fc & Ff & Fl).
      destruct (FilterToSubjectFilter_fields b2 subjectFilter) as (Fw & _ & Fz).
      cbv zeta in Fw, Fz.
      rewrite Fs, Fc, Ff, Fl, Fw, Fz, S2, C2, F2, L2, W2, Z2.
      split; [reflexivity |]. split; [reflexivity |]. split; [reflexivity |].
      split; [reflexivity |]. split.
      + destruct (decide (OptionalSubjectId subjectFilter = "")) as [Hid | Hid];
          [rewrite bool_decide_eq_false_2 by (intros H; now apply H)
          | rewrite bool_decide_eq_true_2 by exact Hid];
          rewrite <- !app_assoc; reflexivity.
      + rewrite wrap_int_add_l. reflexivity.
    - rewrite ?app_nil_r, Z.add_0_r. repeat split; assumption. }
  destruct Hmain as (S0 & C0 & F0 & L0 & W0 & Z0).
  repeat split; try assumption.
  - rewrite Z0. now apply wrap_int_id.
  - rewrite Z0, wrap_int_id by assumption.
    unfold relationshipFilterLength.
    pose proof (len_string_nonneg (RelationshipFilter.ResourceType filter)).
    pose proof (len_string_nonneg (RelationshipFilter.OptionalResourceId filter)).
    pose proof (len_string_nonneg (RelationshipFilter.OptionalRelation filter)).
    destruct (RelationshipFilter.OptionalSubjectFilter filter) as [subjectFilter |]; [| lia].
    unfold subjectFilterLength.
    pose proof (len_string_nonneg (SubjectType subjectFilter)).
    pose proof (len_string_nonneg (OptionalSubjectId subjectFilter)).
    destruct (subjectRelationName subjectFilter) as [name |]; [| lia].
    pose proof (len_string_nonneg name). lia.
Qed.

(** X15. [QueryTuples] never panics, whatever the filter and the options: it
    returns an iterator or an error, never both and never neither, and the
    error wraps its cause under the uniform prefix. *)
Theorem QueryTuples_returns (pgd : pgDatastore) (filter : RelationshipFilter.t)
  (revision : Revision) (queryOpts : QueryOptions.t) :
  exists iterator err,
    QueryTuples colNamespace colObjectID colRelation
      colUsersetNamespace colUsersetObjectID colUsersetRelation tableTuple
      filterToLivingObjects ToSql pgd filter revision queryOpts = Returns (iterator, err) /\
    (err = None <-> is_Some iterator) /\
    (forall e, err = Some e -> exists cause, e = Errorf errUnableToQueryTuples cause).
Proof.
  unfold QueryTuples, SplitAndExecute.
  destruct (splitQueries_returns
              (queryTuplesSplitter colNamespace colObjectID colRelation
                 colUsersetNamespace colUsersetObjectID colUsersetRelation tableTuple
                 filterToLivingObjects pgd filter revision queryOpts)) as (queries & ->).
  cbn.
  destruct (executeQueries ToSql _ 0 queries []) as [e | tuples] eqn:Hrun.
  - exists None, (Some e). split; [reflexivity |]. split.
    + split; [discriminate | intros [? ?]; discriminate].
    + intros e' [= <-]. now apply executeQueries_error_shape in Hrun.
  - eexists _, None. split; [reflexivity |]. split.
    + split; [intros _; now eexists | reflexivity].
    + discriminate.
Qed.

Let reverseBuilderOf (subjectFilter : SubjectFilter) (revision : Revision)
  (queryOpts : ReverseQueryOptions.t) : SchemaQueryFilterer :=
  reverseQueryTuplesBuilder colNamespace colObjectID colRelation
    colUsersetNamespace colUsersetObjectID colUsersetRelation tableTuple
    filterToLivingObjects subjectFilter revision queryOpts.

Let reverseSplitterOf (pgd : pgDatastore) (subjectFilter : SubjectFilter) (revision : Revision)
  (queryOpts : ReverseQueryOptions.t) : TupleQuerySplitter :=
  reverseQueryTuplesSplitter colNamespace colObjectID colRelation
    colUsersetNamespace colUsersetObjectID colUsersetRelation tableTuple
    filterToLivingObjects pgd subjectFilter revision queryOpts.

(** X16. [ReverseQueryTuples] never splits: it sends one statement, for the
    living rows that match the subject filter and, when a resource relation
    is given, its namespace and relation; the call returns what that
    statement returns, capped at the reverse limit when there is one. *)
Theorem ReverseQueryTuples_single_query (pgd : pgDatastore) (subjectFilter : SubjectFilter)
  (revision : Revision) (queryOpts : ReverseQueryOptions.t) :
  let builder := reverseBuilderOf subjectFilter revision queryOpts in
  let ctq := reverseSplitterOf pgd subjectFilter revision queryOpts in
  splitQueries ctq = Returns [builder] /\
  WhereParts (queryBuilder builder)
    = WhereParts (living revision)
      ++ subjectFilterPredicates schema0 subjectFilter
      ++ match ReverseQueryOptions.ResRelation queryOpts with
         | Some resRelation =>
             [Eq {[ colNamespace := RelationReference.Namespace resRelation ]};
              Eq {[ colRelation := RelationReference.Relation resRelation ]}]
         | None => []
         end /\
  (ReverseQueryOptions.ReverseLimit queryOpts = None ->
   ReverseQueryTuples colNamespace colObjectID colRelation
     colUsersetNamespace colUsersetObjectID colUsersetRelation tableTuple
     filterToLivingObjects ToSql pgd subjectFilter revision queryOpts
   = Returns (singleResult (executeSingleQuery ToSql ctq builder 0 0))) /\
  (forall limit,
     ReverseQueryOptions.ReverseLimit queryOpts = Some limit -> is_uint64 limit -> 0 < limit ->
     ReverseQueryTuples colNamespace colObjectID colRelation
       colUsersetNamespace colUsersetObjectID colUsersetRelation tableTuple
       filterToLivingObjects ToSql pgd subjectFilter revision queryOpts
     = Returns (singleResult (executeSingleQuery ToSql ctq (Limit builder limit) 0 limit))).
Proof.
  intros builder ctq.
  destruct (single_query_result ToSql ctq eq_refl) as (Hq & Hnone & Hsome).
  split; [exact Hq |]. split; [| split; [exact Hnone | exact Hsome]].
  unfold builder, reverseBuilderOf, reverseQueryTuplesBuilder, subjectFilterPredicates.
  fold schema0. fold (living revision).
  set (b0 := NewSchemaQueryFilterer schema0 (living revision)).
  destruct (FilterToSubjectFilter_fields b0 subjectFilter) as (Fw & _ & _).
  cbv zeta in Fw.
  assert (Hsubject : WhereParts (queryBuilder (FilterToSubjectFilter b0 subjectFilter))
            = WhereParts (living revision)
              ++ [Eq {[ ColUsersetNamespace schema0 := SubjectType subjectFilter ]}]
              ++ (if decide (OptionalSubjectId subjectFilter = "") then []
                  else [Eq {[ ColUsersetObjectID schema0 := OptionalSubjectId subjectFilter ]}])
              ++ match subjectRelationName subjectFilter with
                 | Some name => [Eq {[ ColUsersetRelation schema0 := name ]}]
                 | None => []
                 end).
  { rewrite Fw.
    destruct (decide (OptionalSubjectId subjectFilter = "")) as [Hid | Hid];
      [rewrite bool_decide_eq_false_2 by (intros H; now apply H)
      | rewrite bool_decide_eq_true_2 by exact Hid];
      reflexivity. }
  destruct (FilterToSubjectFilter_frame b0 subjectFilter) as (Fs & _).
  destruct (ReverseQueryOptions.ResRelation queryOpts) as [resRelation |]; simpl.
  - rewrite Hsubject, Fs, <- !app_assoc. reflexivity.
  - rewrite Hsubject, ?app_nil_r. reflexivity.
Qed.

End PostgresProperties.

Lemma queryTuplesBuilder_filters_witness :
  currentEstimatedSize
    (queryTuplesBuilder "namespace" "object_id" "relation"
       "userset_namespace" "userset_object_id" "userset_relation" "relation_tuple"
       livingRows folderViewers 1) = 32.
Proof.
  destruct (queryTuplesBuilder_filters "namespace" "object_id" "relation"
              "userset_namespace" "userset_object_id" "userset_relation" "relation_tuple"
              livingRows folderViewers 1) as (_ & _ & _ & _ & _ & _ & Hexact).
  destruct Hexact as [Hsize _].
  - vm_compute. split; discriminate.
  - rewrite Hsize. reflexivity.
Defined.

Lemma ReverseQueryTuples_single_query_witness :
  ReverseQueryTuples "namespace" "object_id" "relation"
    "userset_namespace" "userset_object_id" "userset_relation" "relation_tuple"
    livingRows plainToSql samplePg groupMembers 1 threeAtMost
  = Returns (Some (NewSliceTupleIterator (take 3 tenRows)), None).
Proof.
  destruct (ReverseQueryTuples_single_query "namespace" "object_id" "relation"
              "userset_namespace" "userset_object_id" "userset_relation" "relation_tuple"
              livingRows plainToSql samplePg groupMembers 1 threeAtMost)
    as (_ & _ & _ & Hlimited).
  rewrite (Hlimited 3 eq_refl); [reflexivity | split; discriminate | reflexivity].
Defined.

(** * The statement sent under a limit *)

Section StatementLimit.

Variable ToSql : SelectBuilder -> error + Sql.


End StatementLimit.


(** * Properties of the test utilities *)

Section RequireEqualEmptyNilProperties.

Variable any : Type.
Variable ValueOf : any -> reflect.Value.
Variable requireEqual : any -> any -> bool.

(** X17. [RequireEqualEmptyNil] never panics: it asks for a length only where
    there is one. The test goes on exactly when both values are of one and the
    same kind among arrays, slices and maps and both are empty, or when
    [require.Equal] lets it go on. *)
Theorem RequireEqualEmptyNil_verdict (expected actual : any) :
  exists goesOn,
    RequireEqualEmptyNil any ValueOf requireEqual expected actual = Returns goesOn /\
    (goesOn = true <->
     (reflect.kind (ValueOf expected) = reflect.kind (ValueOf actual) /\
      hasLength (reflect.kind (ValueOf expected)) = true /\
      reflect.elements (ValueOf expected) = 0%nat /\
      reflect.elements (ValueOf actual) = 0%nat) \/
     requireEqual expected actual = true).
Proof.
  unfold RequireEqualEmptyNil.
  destruct (ValueOf expected) as [ek en], (ValueOf actual) as [ak an]. simpl.
  destruct (decide (ek = ak)) as [<- | Hkind].
  - rewrite bool_decide_eq_true_2 by reflexivity.
    destruct (hasLength ek) eqn:Hlen.
    + assert (Hdefined : forall n, reflect.Len {| reflect.kind := ek; reflect.elements := n |}
                                   = Returns (Z.of_nat n)).
      { intros n. unfold reflect.Len. simpl. destruct ek; try discriminate; reflexivity. }
      rewrite !Hdefined. cbn.
      destruct (decide (Z.of_nat en = 0)) as [Hen | Hen].
      * rewrite bool_decide_eq_true_2 by exact Hen.
        destruct (decide (Z.of_nat an = 0)) as [Han | Han].
        -- rewrite bool_decide_eq_true_2 by exact Han.
           exists true. split; [reflexivity |].
           split; [intros _; left; repeat split; lia | reflexivity].
        -- rewrite bool_decide_eq_false_2 by exact Han.
           eexists. split; [reflexivity |].
           split; [now right | intros [(_ & _ & _ & Hzero) | Hequal]; [lia | exact Hequal]].
      * rewrite bool_decide_eq_false_2 by exact Hen.
        eexists. split; [reflexivity |].
        split; [now right | intros [(_ & _ & Hzero & _) | Hequal]; [lia | exact Hequal]].
    + eexists. split; [reflexivity |].
      split; [now right | intros [(_ & Hhas & _) | Hequal]; [discriminate | exact Hequal]].
  - rewrite bool_decide_eq_false_2 by exact Hkind.
    eexists. split; [reflexivity |].
    split; [now right | intros [(Hsame & _) | Hequal]; [contradiction | exact Hequal]].
Qed.

End RequireEqualEmptyNilProperties.

(** * What the queries of a split ask for *)

Lemma queries_of_parts (base : SchemaQueryFilterer) (parts : list (list ObjectAndRelation))
  (queries : list SchemaQueryFilterer) :
  Forall2 (fun part query => FilterToUsersets base part = Returns query) parts queries ->
  Forall (fun part => part <> []) parts ->
  Forall (fun query =>
            WhereParts (queryBuilder query)
              = WhereParts (queryBuilder base) ++ [Or (usersetClauses query)] /\
            usersetClauses query <> [] /\
            Columns (queryBuilder query) = Columns (queryBuilder base) /\
            From (queryBuilder query) = From (queryBuilder base) /\
            LimitPart (queryBuilder query) = LimitPart (queryBuilder base) /\
            tracerAttributes query = tracerAttributes base /\
            schema query = schema base) queries /\
  concat (map usersetClauses queries)
    = map (fun userset => Eq (usersetEq (schema base) userset)) (concat parts).
Proof.
  induction 1 as [|part query parts queries Hquery _ IH]; intros Hne.
  - split; [constructor | reflexivity].
  - inversion Hne as [|? ? Hpart Hparts]; subst.
    destruct (IH Hparts) as [Hall Hcat].
    rewrite (FilterToUsersets_nonempty base part Hpart) in Hquery.
    injection Hquery as <-.
    assert (Hclauses : usersetClauses
              (set_queryBuilder
                 (set_currentEstimatedSize base
                    (wrap_int (currentEstimatedSize base + partitionSize 0 part)))
                 (Where (queryBuilder base)
                    (Or (map (fun userset => Eq (usersetEq (schema base) userset)) part))))
              = map (fun userset => Eq (usersetEq (schema base) userset)) part).
    { unfold usersetClauses. simpl. now rewrite last_snoc. }
    split.
    + constructor; [| exact Hall].
      rewrite Hclauses. simpl. repeat split.
      destruct part; [congruence | discriminate].
    + simpl. rewrite Hclauses, Hcat, map_app. reflexivity.
Qed.

(** X5. For a non-empty userset list every query is the base builder with one
    more predicate, a non-empty disjunction, and the same limit, attributes
    and schema; the terms of these disjunctions, query after query, are the
    equalities of the usersets, each once and in the order of the list. *)
Theorem split_queries_cover_usersets (ctq : TupleQuerySplitter) :
  let base := TupleQuerySplitter.FilteredQueryBuilder ctq in
  TupleQuerySplitter.Usersets ctq <> [] ->
  exists queries,
    splitQueries ctq = Returns queries /\
    Forall (fun query =>
              WhereParts (queryBuilder query)
                = WhereParts (queryBuilder base) ++ [Or (usersetClauses query)] /\
              usersetClauses query <> [] /\
              Columns (queryBuilder query) = Columns (queryBuilder base) /\
              From (queryBuilder query) = From (queryBuilder base) /\
              LimitPart (queryBuilder query) = LimitPart (queryBuilder base) /\
              tracerAttributes query = tracerAttributes base /\
              schema query = schema base) queries /\
    concat (map usersetClauses queries)
      = map (fun userset => Eq (usersetEq (schema base) userset))
          (TupleQuerySplitter.Usersets ctq).
Proof.
  intros base Hne.
  destruct (splitQueries_partitions ctq Hne) as (queries & Hq & Hall).
  exists queries. split; [exact Hq |].
  destruct (queries_of_parts base _ queries Hall (specPartitions_nonempty _ _ _ Hne))
    as [Hqueries Hcat].
  split; [exact Hqueries |].
  now rewrite specPartitions_concat in Hcat.
Qed.

Lemma split_queries_cover_usersets_witness :
  exists queries,
    splitQueries scenarioSplitter = Returns queries /\
    concat (map usersetClauses queries)
      = [Eq (usersetEq sampleSchema usersetA); Eq (usersetEq sampleSchema usersetB);
         Eq (usersetEq sampleSchema usersetC)].
Proof.
  destruct (split_queries_cover_usersets scenarioSplitter) as (queries & Hq & _ & Hcat).
  - discriminate.
  - exists queries. split; [exact Hq | exact Hcat].
Defined.

(** * The limit, to the row *)

Section LimitToTheRow.

Variable ToSql : SelectBuilder -> error + Sql.

(** X11. With a limit below 2^63 and a database that answers every partition
    without failure, the call returns the first rows, up to the limit, of
    all the rows the partitions hold, taken partition after partition: as
    many as the smaller of the limit and the number of rows. *)
Theorem limit_returns_first_rows (ctq : TupleQuerySplitter) (limit : Z)
  (queries : list SchemaQueryFilterer) (matching : nat -> list RelationTuple) :
  TupleQuerySplitter.Limit ctq = Some limit ->
  0 <= limit <= int_max ->
  splitQueries ctq = Returns queries ->
  answers ToSql ctq queries matching ->
  let rows := matchingFrom matching 0 (List.length queries) in
  SplitAndExecute ToSql ctq
    = Returns (Some (NewSliceTupleIterator (take (Z.to_nat limit) rows)), None) /\
  len (take (Z.to_nat limit) rows) = Z.min limit (len rows).
Proof.
  intros Hlimit Hrange Hqueries Hanswers rows.
  destruct (small_limit_returns_min ToSql ctq limit queries matching
              Hlimit Hrange Hqueries Hanswers) as (Hresult & Hcount & _).
  split; [exact Hresult | exact Hcount].
Qed.

End LimitToTheRow.

Lemma limit_returns_first_rows_witness :
  SplitAndExecute plainToSql limitedSplitter
  = Returns (Some (NewSliceTupleIterator (take 5 tenRows)), None).
Proof.
  destruct (limit_returns_first_rows plainToSql limitedSplitter 5
              (match splitQueries limitedSplitter with Returns queries => queries | Panics _ => [] end)
              (fun _ => tenRows)) as (Hresult & _).
  - reflexivity.
  - split; discriminate.
  - reflexivity.
  - intros index query cap _ Hcap.
    exists (From (queryBuilder query), []), tenRows.
    repeat split; try reflexivity.
    apply Z.le_min_r.
  - exact Hresult.
Defined.
